(** * steel-invoice: the record browser and the invoice editor

    A shallow embedding of [src/components/DatabaseManager.tsx] (the
    [DatabaseManager] record browser and the [InvoiceModal] invoice editor)
    and the properties of the specification that concern them.

    Conventions of the embedding.
    - A JavaScript [number] is an exact integer [Z]: quantities are whole
      units (the form reads them with [parseInt]) and money amounts are
      counted in the smallest currency unit.  Rounding of IEEE doubles, [NaN]
      and the infinities are outside the model.
    - A JavaScript [string] is a [string]; a string is truthy when it is not
      empty.
    - Calls into collaborators whose text is not part of the component
      (Intl.NumberFormat, Date, date-fns [format]) are kept symbolic: the
      result records which formatter was applied to which argument.
    - Notifications, remote mutations and the closing of the modal are
      recorded, in the order in which the handler performs them, in a trace. *)

From stdpp Require Import base strings pretty gmap list.
From Stdlib Require Import ZArith Lia.

Local Open Scope string_scope.
Local Open Scope list_scope.
Local Open Scope Z_scope.

(** ** JavaScript strings and numbers *)

Module Js.

(** [s.startsWith(pre)] *)
Fixpoint startsWith (s pre : string) : bool :=
  match pre with
  | EmptyString => true
  | String c pre' =>
      match s with
      | EmptyString => false
      | String d s' => if Ascii.eqb c d then startsWith s' pre' else false
      end
  end.

(** [s.includes(sub)] *)
Fixpoint includes (s sub : string) : bool :=
  startsWith s sub ||
  match s with
  | EmptyString => false
  | String _ s' => includes s' sub
  end.

(** [s.endsWith(suf)] *)
Fixpoint endsWith (s suf : string) : bool :=
  String.eqb s suf ||
  match s with
  | EmptyString => false
  | String _ s' => endsWith s' suf
  end.

(** Truthiness of a string: [!!s]. *)
Definition truthy (s : string) : bool := negb (String.eqb s "").

(** [n.toString()] and the interpolation of a number in a template
    literal, for an integer (below 1e21, where JavaScript still prints all
    the digits). *)
Definition toString (n : Z) : string := pretty n.

(** [s.slice(-k)]: the last [k] characters of [s]. *)
Definition sliceLast (k : nat) (s : string) : string :=
  String.substring (String.length s - k) k s.

(** The values a record field of type [any] can hold. *)
Inductive value :=
  | Null
  | Undefined
  | Num (n : Z)
  | Str (s : string)
  | Bool (b : bool).

Definition nullish (v : value) : bool :=
  match v with
  | Null | Undefined => true
  | _ => false
  end.

End Js.

(** ** The record browser ([DatabaseManager]) *)

Module Browser.

Record TableConfig := {
  table : string;
  name : string;
  columns : list string;
  editable : list string
}.

Definition tableConfigs : list TableConfig := [
  {| table := "invoices"; name := "Invoices";
     columns := ["id"; "invoice_number"; "client_name"; "total_amount";
                 "status"; "issue_date"; "due_date"];
     editable := ["total_amount"; "status"; "issue_date"; "due_date"] |};
  {| table := "clients"; name := "Clients";
     columns := ["id"; "company_name"; "contact_name"; "email"; "phone";
                 "address"];
     editable := ["company_name"; "contact_name"; "email"; "phone";
                  "address"] |};
  {| table := "profiles"; name := "User Profiles";
     columns := ["id"; "first_name"; "last_name"; "created_at"];
     editable := ["first_name"; "last_name"] |};
  {| table := "invoice_items"; name := "Invoice Items";
     columns := ["id"; "invoice_id"; "description"; "quantity"; "unit_price";
                 "line_total"];
     editable := ["description"; "quantity"; "unit_price"; "line_total"] |}
].

(** The text [formatValue] produces.  The three formatters are library
    calls; the constructor says which one was applied to the value. *)
Inductive Formatted :=
  | Dash                        (* the literal '-' *)
  | Currency (v : Js.value)     (* Intl.NumberFormat('en-US', USD).format(Number(v)) *)
  | DateTime (v : Js.value)     (* new Date(v).toLocaleString('en-US', ...) *)
  | Plain (v : Js.value).       (* String(v) *)

Definition formatValue (v : Js.value) (column : string) : Formatted :=
  if Js.nullish v then Dash
  else if Js.includes column "amount" || Js.includes column "price"
          || Js.includes column "total" then Currency v
  else if Js.includes column "date" || Js.includes column "at" then DateTime v
  else Plain v.

Definition getStatusColor (status : Js.value) : string :=
  match status with
  | Js.Str "paid" => "bg-green-100 text-green-700"
  | Js.Str "pending" => "bg-yellow-100 text-yellow-700"
  | Js.Str "overdue" => "bg-red-100 text-red-700"
  | Js.Str "draft" => "bg-gray-100 text-gray-700"
  | _ => "bg-gray-100 text-gray-700"
  end.

(** A table cell: the [status] column is a badge showing the raw value, every
    other column is a span around [formatValue]. *)
Inductive Cell :=
  | Badge (className : string) (v : Js.value)
  | Span (className : string) (text : Formatted).

Definition renderCell (column : string) (v : Js.value) : Cell :=
  if String.eqb column "status" then Badge (getStatusColor v) v
  else Span (if String.eqb column "id"
             then "font-mono text-xs text-steel-500" else "text-gray-900")
            (formatValue v column).

(** The two column classes, as the code tests them ... *)
Definition isMoneyColumn (column : string) : bool :=
  Js.includes column "amount" || Js.includes column "price"
  || Js.includes column "total".

Definition isDateColumn (column : string) : bool :=
  Js.includes column "date" || Js.includes column "at".

(** ... and the date class as the specification words it: the name contains
    "date" or ends in "_at". *)
Definition isDateColumn_spec (column : string) : bool :=
  Js.includes column "date" || Js.endsWith column "_at".

End Browser.

(** ** The invoice editor ([InvoiceModal]): data *)

(** A row of the inventory table, as [useInventory] returns it. *)
Module InventoryItem.
Record t := mk {
  id : string;
  name : string;
  description : option string;
  category : option string;
  unit_price : Z;
  quantity : Z
}.
End InventoryItem.

(** [interface InvoiceItem]: one line-item draft of the form. *)
Module InvoiceItem.
Record t := mk {
  id : string;
  inventory_id : string;
  description : string;
  quantity : Z;
  unit_price : Z;
  line_total : Z
}.
End InvoiceItem.

Inductive InvoiceStatus := draft | pending | paid | overdue.

(** A JavaScript [Date], by the expression that built it. *)
Inductive JsDate :=
  | DateOfMillis (ms : Z)         (* new Date(ms), new Date() at time ms *)
  | DateOfString (s : string).    (* new Date(s) *)

(** date-fns [format(d, 'yyyy-MM-dd')], kept symbolic: the text is not
    computed (it is the local calendar day of [d]), and [d] is taken to be a
    valid date, as every date of a form that was rendered is ([format] throws
    on an invalid one). *)
Inductive DateText :=
  | format_yyyy_MM_dd (d : JsDate).

(** The [invoice] prop: a stored invoice (the fields the modal reads). *)
Module Invoice.
Record t := mk {
  id : string;
  client_id : string;
  invoice_number : string;
  issue_date : string;
  due_date : string;
  notes : option string;
  status : InvoiceStatus;
  subtotal : Z
}.
End Invoice.

Module FormData.
Record t := mk {
  client_id : string;
  invoice_number : string;
  issue_date : JsDate;
  due_date : JsDate;
  notes : string;
  status : InvoiceStatus
}.
End FormData.

(** [invoiceData]: the invoice record [handleSubmit] sends. *)
Module InvoiceData.
Record t := mk {
  client_id : string;
  invoice_number : string;
  issue_date : DateText;
  due_date : DateText;
  notes : string;
  status : InvoiceStatus;
  subtotal : Z;
  tax_amount : Z;
  total_amount : Z
}.
End InvoiceData.

(** One element of [invoiceItems], the batch sent to [createInvoiceItems]. *)
Module InvoiceItemRow.
Record t := mk {
  invoice_id : string;
  description : string;
  quantity : Z;
  unit_price : Z;
  line_total : Z
}.
End InvoiceItemRow.

(** The argument of [toast]. *)
Module Toast.
Record t := mk {
  title : string;
  description : string;
  variant : option string
}.
End Toast.

Module Editor.

Record State := mkState {
  formData : FormData.t;
  items : list InvoiceItem.t;
  inventorySearches : gmap string string
}.

Definition blankItem (id : string) : InvoiceItem.t :=
  InvoiceItem.mk id "" "" 1 0 0.

Definition thirtyDays : Z := 30 * 24 * 60 * 60 * 1000.

(** The initial values of the three [useState] hooks, at time [now]. *)
Definition initialState (now : Z) : State :=
  {| formData :=
       FormData.mk "" "" (DateOfMillis now) (DateOfMillis (now + thirtyDays))
                   "" draft;
     items := [blankItem "1"];
     inventorySearches := ∅ |}.

(** The [useEffect] on [invoice, isOpen], run with [isOpen] true at time
    [now]. *)
Definition openModal (invoice : option Invoice.t) (now : Z) (st : State)
  : State :=
  match invoice with
  | Some inv =>
      {| formData :=
           FormData.mk (Invoice.client_id inv) (Invoice.invoice_number inv)
                       (DateOfString (Invoice.issue_date inv))
                       (DateOfString (Invoice.due_date inv))
                       (default "" (Invoice.notes inv))
                       (Invoice.status inv);
         items := [InvoiceItem.mk "1" "" "Steel fabrication services" 1
                                  (Invoice.subtotal inv) (Invoice.subtotal inv)];
         inventorySearches := inventorySearches st |}
  | None =>
      let invoiceCount := Js.sliceLast 4 (Js.toString now) in
      {| formData :=
           FormData.mk "" ("INV-" +:+ invoiceCount) (DateOfMillis now)
                       (DateOfMillis (now + thirtyDays)) "" draft;
         items := [blankItem "1"];
         inventorySearches := ∅ |}
  end.

Definition calculateItemTotal (quantity unitPrice : Z) : Z :=
  quantity * unitPrice.

Definition calculateSubtotal (items : list InvoiceItem.t) : Z :=
  fold_left (λ sum item, sum + InvoiceItem.line_total item) items 0.

(** [inventory.find(inv => inv.id === id)] *)
Definition findInventory (inventory : list InventoryItem.t) (id : string)
  : option InventoryItem.t :=
  List.find (λ inv, String.eqb (InventoryItem.id inv) id) inventory.

(** The "Insufficient Inventory" notification of [handleItemChange] and
    [validateItems]. *)
Definition insufficientInventory (inventoryItem : InventoryItem.t) : Toast.t :=
  Toast.mk "Insufficient Inventory"
    ("Only " +:+ Js.toString (InventoryItem.quantity inventoryItem)
     +:+ " units available for " +:+ InventoryItem.name inventoryItem)
    (Some "destructive").

(** A [field]/[value] pair of [handleItemChange], with the value of the
    field's declared type. *)
Inductive FieldEdit :=
  | SetId (value : string)
  | SetInventoryId (value : string)
  | SetDescription (value : string)
  | SetQuantity (value : Z)
  | SetUnitPrice (value : Z)
  | SetLineTotal (value : Z).

(** [{ ...item, [field]: value }] *)
Definition assignField (item : InvoiceItem.t) (edit : FieldEdit)
  : InvoiceItem.t :=
  let '(InvoiceItem.mk i inv d q p t) := item in
  match edit with
  | SetId v => InvoiceItem.mk v inv d q p t
  | SetInventoryId v => InvoiceItem.mk i v d q p t
  | SetDescription v => InvoiceItem.mk i inv v q p t
  | SetQuantity v => InvoiceItem.mk i inv d v p t
  | SetUnitPrice v => InvoiceItem.mk i inv d q v t
  | SetLineTotal v => InvoiceItem.mk i inv d q p v
  end.

Definition setQuantity (item : InvoiceItem.t) (q : Z) : InvoiceItem.t :=
  let '(InvoiceItem.mk i inv d _ p t) := item in InvoiceItem.mk i inv d q p t.

Definition setLineTotal (item : InvoiceItem.t) (t : Z) : InvoiceItem.t :=
  let '(InvoiceItem.mk i inv d q p _) := item in InvoiceItem.mk i inv d q p t.

(** The body of the [items.map] callback of [handleItemChange] for a line
    whose id matches: the updated line and the notifications raised. *)
Definition changeLine (inventory : list InventoryItem.t) (edit : FieldEdit)
    (item : InvoiceItem.t) : InvoiceItem.t * list Toast.t :=
  let updatedItem := assignField item edit in
  match edit with
  | SetQuantity newQuantity =>
      let '(updatedItem, toasts) :=
        if Js.truthy (InvoiceItem.inventory_id updatedItem) then
          match findInventory inventory (InvoiceItem.inventory_id updatedItem) with
          | Some inventoryItem =>
              if bool_decide (newQuantity > InventoryItem.quantity inventoryItem)
              then (setQuantity updatedItem (InventoryItem.quantity inventoryItem),
                    [insufficientInventory inventoryItem])
              else (setQuantity updatedItem newQuantity, [])
          | None => (setQuantity updatedItem newQuantity, [])
          end
        else (setQuantity updatedItem newQuantity, []) in
      (setLineTotal updatedItem
         (calculateItemTotal (InvoiceItem.quantity updatedItem)
                             (InvoiceItem.unit_price updatedItem)),
       toasts)
  | SetUnitPrice value =>
      (setLineTotal updatedItem
         (calculateItemTotal (InvoiceItem.quantity updatedItem) value), [])
  | _ => (updatedItem, [])
  end.

(** [items.map(f)] for a callback that also raises notifications: the new
    array and the notifications in the order of the lines. *)
Fixpoint mapNotify (f : InvoiceItem.t → InvoiceItem.t * list Toast.t)
    (items : list InvoiceItem.t) : list InvoiceItem.t * list Toast.t :=
  match items with
  | [] => ([], [])
  | item :: rest =>
      let '(item', toasts) := f item in
      let '(rest', toasts') := mapNotify f rest in
      (item' :: rest', toasts ++ toasts')
  end.

Definition handleItemChange (inventory : list InventoryItem.t) (id : string)
    (edit : FieldEdit) (st : State) : State * list Toast.t :=
  let '(items', toasts) :=
    mapNotify (λ item, if String.eqb (InvoiceItem.id item) id
                       then changeLine inventory edit item
                       else (item, []))
              (items st) in
  ({| formData := formData st; items := items';
      inventorySearches := inventorySearches st |}, toasts).

(** The body of the [prevItems.map] callback of [handleInventorySelect] for
    a line whose id matches. *)
Definition selectLine (inventoryItemId : string)
    (inventoryItem : InventoryItem.t) (item : InvoiceItem.t) : InvoiceItem.t :=
  let validQuantity :=
    Z.min (InvoiceItem.quantity item) (InventoryItem.quantity inventoryItem) in
  InvoiceItem.mk (InvoiceItem.id item) inventoryItemId
    (InventoryItem.name inventoryItem) validQuantity
    (InventoryItem.unit_price inventoryItem)
    (calculateItemTotal validQuantity (InventoryItem.unit_price inventoryItem)).

Definition handleInventorySelect (inventory : list InventoryItem.t)
    (itemId inventoryItemId : string) (st : State) : State :=
  match findInventory inventory inventoryItemId with
  | Some inventoryItem =>
      {| formData := formData st;
         items := map (λ item, if String.eqb (InvoiceItem.id item) itemId
                               then selectLine inventoryItemId inventoryItem item
                               else item) (items st);
         inventorySearches := <[itemId := ""]> (inventorySearches st) |}
  | None => st
  end.

(** The "Change Item" button of a line. *)
Definition changeItemClick (itemId : string) (st : State) : State :=
  {| formData := formData st;
     items := map (λ prevItem,
                if String.eqb (InvoiceItem.id prevItem) itemId
                then InvoiceItem.mk (InvoiceItem.id prevItem) "" ""
                       (InvoiceItem.quantity prevItem) 0 0
                else prevItem) (items st);
     inventorySearches := inventorySearches st |}.

(** [addItem], when [Date.now()] reads [now]. *)
Definition addItem (now : Z) (st : State) : State :=
  let newItem := InvoiceItem.mk (Js.toString now) "" "" 1 0 0 in
  {| formData := formData st;
     items := items st ++ [newItem];
     inventorySearches := inventorySearches st |}.

Definition removeItem (id : string) (st : State) : State :=
  if bool_decide (1 < length (items st))%nat then
    {| formData := formData st;
       items := List.filter (λ item, negb (String.eqb (InvoiceItem.id item) id))
                            (items st);
       inventorySearches := delete id (inventorySearches st) |}
  else st.

(** [validateItems]: the verdict and the notifications raised on the way. *)
Fixpoint validateItems (inventory : list InventoryItem.t)
    (items : list InvoiceItem.t) : bool * list Toast.t :=
  match items with
  | [] => (true, [])
  | item :: rest =>
      if negb (Js.truthy (InvoiceItem.inventory_id item))
         || negb (Js.truthy (InvoiceItem.description item))
         || bool_decide (InvoiceItem.quantity item ≤ 0)
         || bool_decide (InvoiceItem.unit_price item ≤ 0)
      then (false, [])
      else
        match findInventory inventory (InvoiceItem.inventory_id item) with
        | Some inventoryItem =>
            if bool_decide (InvoiceItem.quantity item
                            > InventoryItem.quantity inventoryItem)
            then (false, [insufficientInventory inventoryItem])
            else validateItems inventory rest
        | None => validateItems inventory rest
        end
  end.

(** *** Remote mutations and the submit handler *)

(** The four mutations of the remote store the modal awaits. *)
Inductive RemoteCall :=
  | UpdateInvoice (id : string) (data : InvoiceData.t)
  | CreateInvoice (data : InvoiceData.t)
  | CreateInvoiceItems (rows : list InvoiceItemRow.t)
  | UpdateInventoryQuantity (inventoryId : string) (quantityToReduce : Z).

(** What a handler does to the outside, in order. *)
Inductive Effect :=
  | Notify (t : Toast.t)       (* toast(t) *)
  | Call (c : RemoteCall)      (* await <hook>.mutateAsync(...) *)
  | Close.                     (* onClose() *)

(** The promise of a mutation resolves (with the record's id) or rejects. *)
Inductive Reply :=
  | Resolved (id : string)
  | Rejected.

(** The remote store, as the handler sees it: the reply to a call, given the
    calls that came before it. *)
Definition Remote := list RemoteCall → RemoteCall → Reply.

Inductive Outcome (A : Type) :=
  | Returned (a : A)
  | Thrown.
Arguments Returned {A} a.
Arguments Thrown {A}.

(** An [async] computation: it extends the trace and returns or throws. *)
Definition Async (A : Type) : Type :=
  Remote → list Effect → Outcome A * list Effect.

Definition callsOf (trace : list Effect) : list RemoteCall :=
  omap (λ e, match e with Call c => Some c | _ => None end) trace.

Definition notificationsOf (trace : list Effect) : list Toast.t :=
  omap (λ e, match e with Notify t => Some t | _ => None end) trace.

#[export] Instance Async_ret : MRet Async :=
  λ A (a : A) _ trace, (Returned a, trace).

#[export] Instance Async_bind : MBind Async :=
  λ A B (k : A → Async B) (m : Async A) remote trace,
    match m remote trace with
    | (Returned a, trace') => k a remote trace'
    | (Thrown, trace') => (Thrown, trace')
    end.

Definition toast (t : Toast.t) : Async () :=
  λ _ trace, (Returned (), trace ++ [Notify t]).

Definition toasts (ts : list Toast.t) : Async () :=
  λ _ trace, (Returned (), trace ++ map Notify ts).

Definition onClose : Async () :=
  λ _ trace, (Returned (), trace ++ [Close]).

(** [await hook.mutateAsync(...)]: the call is issued; the value is the id of
    the record the store answers with, or the rejection is thrown. *)
Definition mutateAsync (c : RemoteCall) : Async string :=
  λ remote trace,
    match remote (callsOf trace) c with
    | Resolved id => (Returned id, trace ++ [Call c])
    | Rejected => (Thrown, trace ++ [Call c])
    end.

(** [try { body } catch (error) { handler }] *)
Definition tryCatch {A} (body handler : Async A) : Async A :=
  λ remote trace,
    match body remote trace with
    | (Returned a, trace') => (Returned a, trace')
    | (Thrown, trace') => handler remote trace'
    end.

Definition invoiceDataOf (formData : FormData.t) (items : list InvoiceItem.t)
  : InvoiceData.t :=
  let subtotal := calculateSubtotal items in
  InvoiceData.mk (FormData.client_id formData)
    (FormData.invoice_number formData)
    (format_yyyy_MM_dd (FormData.issue_date formData))
    (format_yyyy_MM_dd (FormData.due_date formData))
    (FormData.notes formData) (FormData.status formData)
    subtotal 0 subtotal.

(** The callback of [items.map] that builds [invoiceItems]. *)
Definition rowOf (invoiceId : string) (item : InvoiceItem.t)
  : InvoiceItemRow.t :=
  InvoiceItemRow.mk invoiceId (InvoiceItem.description item)
    (InvoiceItem.quantity item) (InvoiceItem.unit_price item)
    (InvoiceItem.line_total item).

(** The loop "Reduce inventory quantities". *)
Fixpoint reduceInventory (items : list InvoiceItem.t) : Async () :=
  match items with
  | [] => mret ()
  | item :: rest =>
      (if Js.truthy (InvoiceItem.inventory_id item)
          && bool_decide (InvoiceItem.quantity item > 0)
       then (_ ← mutateAsync (UpdateInventoryQuantity
                                 (InvoiceItem.inventory_id item)
                                 (InvoiceItem.quantity item)); mret ())
       else mret ());;
      reduceInventory rest
  end.

Definition selectClientError : Toast.t :=
  Toast.mk "Error" "Please select a client" (Some "destructive").

Definition selectItemsError : Toast.t :=
  Toast.mk "Error" "Please select inventory items for all line items"
           (Some "destructive").

Definition saveError : Toast.t :=
  Toast.mk "Error" "Failed to save invoice" (Some "destructive").

Definition saved (invoice : option Invoice.t) : Toast.t :=
  Toast.mk "Success"
    (match invoice with
     | Some _ => "Invoice updated successfully"
     | None => "Invoice created successfully"
     end) None.

Definition handleSubmit (inventory : list InventoryItem.t)
    (invoice : option Invoice.t) (st : State) : Async () :=
  if negb (Js.truthy (FormData.client_id (formData st))) then
    toast selectClientError
  else
    (* !invoice && !validateItems() *)
    blocked ← (match invoice with
               | Some _ => mret false
               | None =>
                   let '(valid, raised) := validateItems inventory (items st) in
                   toasts raised;; mret (negb valid)
               end : Async bool);
    if (blocked : bool) then toast selectItemsError
    else
      let invoiceData := invoiceDataOf (formData st) (items st) in
      tryCatch
        (match invoice with
         | Some inv =>
             _ ← mutateAsync (UpdateInvoice (Invoice.id inv) invoiceData);
             mret ()
         | None =>
             invoiceId ← mutateAsync (CreateInvoice invoiceData);
             let invoiceItems := map (rowOf invoiceId) (items st) in
             _ ← mutateAsync (CreateInvoiceItems invoiceItems);
             reduceInventory (items st)
         end;;
         toast (saved invoice);;
         onClose)
        (toast saveError).

(** The trace of one submission against a given remote store. *)
Definition submit (remote : Remote) (inventory : list InventoryItem.t)
    (invoice : option Invoice.t) (st : State) : list Effect :=
  snd (handleSubmit inventory invoice st remote []).

(** *** Editor sessions *)

(** One user action on the line items of the open editor.  The quantity and
    unit-price inputs and the buttons of the form are the only callers of the
    handlers; the description has no input of its own but [handleItemChange]
    accepts it.  The inventory is whatever [useInventory] holds at the time
    of the action, and [addItem] reads the clock. *)
Inductive step : State → State → Prop :=
  | step_select inventory itemId inventoryItemId st :
      step st (handleInventorySelect inventory itemId inventoryItemId st)
  | step_quantity inventory id value st :
      step st (handleItemChange inventory id (SetQuantity value) st).1
  | step_unit_price inventory id value st :
      step st (handleItemChange inventory id (SetUnitPrice value) st).1
  | step_description inventory id value st :
      step st (handleItemChange inventory id (SetDescription value) st).1
  | step_change_item itemId st :
      step st (changeItemClick itemId st)
  | step_add now st :
      step st (addItem now st)
  | step_remove id st :
      step st (removeItem id st)
  | step_open invoice now st :
      step st (openModal invoice now st).

(** The states an editor session can be in. *)
Inductive reachable : State → Prop :=
  | reachable_initial now : reachable (initialState now)
  | reachable_step st st' : reachable st → step st st' → reachable st'.

End Editor.

(** ** Scenario data of the specification *)

Module Scenario.
Import Editor.

(** "Steel Beam": 5 available, unit price 100.00. *)
Definition steelBeam : InventoryItem.t :=
  InventoryItem.mk "inv-1" "Steel Beam" None (Some "Beams") 10000 5.

Definition clock : Z := 1730534400123.

Definition blank : State := openModal None clock (initialState clock).

(** The blank editor after "Steel Beam" was selected into its line. *)
Definition beamSelected : State :=
  handleInventorySelect [steelBeam] "1" "inv-1" blank.

Definition beamLine : InvoiceItem.t :=
  InvoiceItem.mk "1" "inv-1" "Steel Beam" 1 10000 10000.

(** A line whose inventory reference is not in the inventory. *)
Definition staleLine : InvoiceItem.t :=
  InvoiceItem.mk "1" "inv-gone" "Angle Iron" 1 2500 2500.

Definition withItems (items : list InvoiceItem.t) (st : State) : State :=
  {| formData := formData st; items := items;
     inventorySearches := inventorySearches st |}.

Definition withClient (client : string) (st : State) : State :=
  {| formData :=
       FormData.mk client (FormData.invoice_number (formData st))
         (FormData.issue_date (formData st)) (FormData.due_date (formData st))
         (FormData.notes (formData st)) (FormData.status (formData st));
     items := items st;
     inventorySearches := inventorySearches st |}.

(** A store that accepts every mutation and names the new invoice
    "inv-new". *)
Definition accepting : Remote := λ _ _, Resolved "inv-new".

Definition storedInvoice : Invoice.t :=
  Invoice.mk "inv-7" "client-1" "INV-0007" "2026-01-05" "2026-02-04" None
             pending 40000.

End Scenario.

(** ** Vocabulary of the specification *)

Module Spec.
Import Editor.

(** The line total of a line is its quantity times its unit price. *)
Definition consistent (item : InvoiceItem.t) : Prop :=
  InvoiceItem.line_total item
  = InvoiceItem.quantity item * InvoiceItem.unit_price item.

(** The decrements the loop of [handleSubmit] asks for. *)
Definition decrements (items : list InvoiceItem.t) : list RemoteCall :=
  map (λ item, UpdateInventoryQuantity (InvoiceItem.inventory_id item)
                                       (InvoiceItem.quantity item))
      (List.filter (λ item, Js.truthy (InvoiceItem.inventory_id item)
                            && bool_decide (InvoiceItem.quantity item > 0))
                   items).

Definition isDecrement (e : Effect) : Prop :=
  match e with
  | Call (UpdateInventoryQuantity _ _) => True
  | _ => False
  end.

(** A line breaks a field rule: no inventory reference, no description, a
    quantity or a unit price that is not positive. *)
Definition fieldViolation (item : InvoiceItem.t) : bool :=
  String.eqb (InvoiceItem.inventory_id item) ""
  || String.eqb (InvoiceItem.description item) ""
  || bool_decide (InvoiceItem.quantity item ≤ 0)
  || bool_decide (InvoiceItem.unit_price item ≤ 0).

(** A line asks for more than its inventory item has: the item it exceeds. *)
Definition stockViolation (inventory : list InventoryItem.t)
    (item : InvoiceItem.t) : option InventoryItem.t :=
  match findInventory inventory (InvoiceItem.inventory_id item) with
  | Some inventoryItem =>
      if bool_decide (InvoiceItem.quantity item
                      > InventoryItem.quantity inventoryItem)
      then Some inventoryItem else None
  | None => None
  end.

Definition offending (inventory : list InventoryItem.t)
    (item : InvoiceItem.t) : bool :=
  fieldViolation item
  || match stockViolation inventory item with
     | Some _ => true
     | None => false
     end.

(** The two guards before the writes of [handleSubmit]. *)
Definition submitBlocked (inventory : list InventoryItem.t)
    (invoice : option Invoice.t) (st : State) : bool :=
  negb (Js.truthy (FormData.client_id (formData st)))
  || match invoice with
     | Some _ => false
     | None => negb (validateItems inventory (items st)).1
     end.

(** The invoice records a trace sends to the store. *)
Definition invoiceRecordsWritten (trace : list Effect) : list InvoiceData.t :=
  omap (λ e, match e with
             | Call (CreateInvoice data) | Call (UpdateInvoice _ data) =>
                 Some data
             | _ => None
             end) trace.

End Spec.

(** ** More of the two components *)

(** Case conversion and conversion to string.  [toLowerCase] and
    [toUpperCase] are the ASCII ones: the strings of the model are ASCII
    text. *)
Module Text.

Definition lowerChar (c : Ascii.ascii) : Ascii.ascii :=
  let n := Ascii.N_of_ascii c in
  if ((65 <=? n) && (n <=? 90))%N then Ascii.ascii_of_N (n + 32) else c.

Definition upperChar (c : Ascii.ascii) : Ascii.ascii :=
  let n := Ascii.N_of_ascii c in
  if ((97 <=? n) && (n <=? 122))%N then Ascii.ascii_of_N (n - 32) else c.

(** [s.toLowerCase()] *)
Fixpoint toLowerCase (s : string) : string :=
  match s with
  | EmptyString => EmptyString
  | String c s' => String (lowerChar c) (toLowerCase s')
  end.

(** [s.toUpperCase()] *)
Fixpoint toUpperCase (s : string) : string :=
  match s with
  | EmptyString => EmptyString
  | String c s' => String (upperChar c) (toUpperCase s')
  end.

Definition underscore : Ascii.ascii := Ascii.ascii_of_N 95.
Definition space : Ascii.ascii := Ascii.ascii_of_N 32.

(** [s.replace(/_/g, ' ')] *)
Fixpoint underscoresToSpaces (s : string) : string :=
  match s with
  | EmptyString => EmptyString
  | String c s' =>
      String (if Ascii.eqb c underscore then space else c)
             (underscoresToSpaces s')
  end.

(** A field of a fetched row: a scalar, or a nested object (the joined
    [clients] record of an invoice) with scalar fields. *)
Inductive FieldValue :=
  | Scalar (v : Js.value)
  | Nested (fields : list (string * Js.value)).

(** [String(v)] *)
Definition toText (v : FieldValue) : string :=
  match v with
  | Scalar Js.Null => "null"
  | Scalar Js.Undefined => "undefined"
  | Scalar (Js.Num n) => Js.toString n
  | Scalar (Js.Str s) => s
  | Scalar (Js.Bool true) => "true"
  | Scalar (Js.Bool false) => "false"
  | Nested _ => "[object Object]"
  end.

(** Truthiness of a scalar. *)
Definition truthy (v : Js.value) : bool :=
  match v with
  | Js.Null | Js.Undefined => false
  | Js.Num n => negb (n =? 0)
  | Js.Str s => Js.truthy s
  | Js.Bool b => b
  end.

End Text.

(** The rows of the record browser, its tables and its search box. *)
Module Records.
Import Text.

(** A fetched record: its own properties, in order. *)
Definition Row := list (string * FieldValue).


(** [{ ...row, [key]: v }]: an existing key keeps its place. *)
Fixpoint setField (key : string) (v : FieldValue) (row : Row) : Row :=
  match row with
  | [] => [(key, v)]
  | (k, w) :: rest =>
      if String.eqb k key then (k, v) :: rest
      else (k, w) :: setField key v rest
  end.

(** [Object.values(row)] *)
Definition values (row : Row) : list FieldValue := map snd row.



Definition invoiceItemsTable (invoiceItems : list Row) : list Row :=
  map (setField "invoices" (Scalar Js.Undefined)) invoiceItems.

(** The predicate of [filteredData]. *)
Definition rowMatches (searchTerm : string) (row : Row) : bool :=
  if negb (Js.truthy searchTerm) then true
  else existsb (λ value, Js.includes (toLowerCase (toText value))
                                     (toLowerCase searchTerm))
               (values row).

Definition filteredData (currentTable : list Row) (searchTerm : string)
  : list Row :=
  List.filter (rowMatches searchTerm) currentTable.

(** The header of a column: [column.replace(/_/g, ' ').toUpperCase()] *)
Definition columnHeader (column : string) : string :=
  toUpperCase (underscoresToSpaces column).

End Records.

(** A client, with the fields the picker reads. *)
Module Client.
Record t := mk {
  id : string;
  company_name : string;
  contact_name : string;
  email : string
}.
End Client.

(** The two search boxes of the invoice editor. *)
Module Picker.
Import Text.

Definition filteredClients (clients : list Client.t) (clientSearch : string)
  : list Client.t :=
  List.filter
    (λ client,
       Js.includes (toLowerCase (Client.company_name client))
                   (toLowerCase clientSearch)
       || Js.includes (toLowerCase (Client.contact_name client))
                      (toLowerCase clientSearch))
    clients.

(** [field && field.toLowerCase().includes(term)] for a nullable field *)
Definition optionalIncludes (field : option string) (term : string) : bool :=
  match field with
  | Some s => Js.truthy s && Js.includes (toLowerCase s) term
  | None => false
  end.

Definition getFilteredInventory (inventory : list InventoryItem.t)
    (searchTerm : string) : list InventoryItem.t :=
  List.filter
    (λ item,
       bool_decide (InventoryItem.quantity item > 0)
       && (Js.includes (toLowerCase (InventoryItem.name item))
                       (toLowerCase searchTerm)
           || optionalIncludes (InventoryItem.description item)
                               (toLowerCase searchTerm)
           || optionalIncludes (InventoryItem.category item)
                               (toLowerCase searchTerm)))
    inventory.

(** The options of the fallback dropdown. *)
Definition dropdownOptions (inventory : list InventoryItem.t)
  : list InventoryItem.t :=
  List.filter (λ inventoryItem,
                 bool_decide (InventoryItem.quantity inventoryItem > 0))
              inventory.

End Picker.

(** Editing sessions as lists of user actions. *)
Module Session.
Import Editor.

Inductive Action :=
  | Select (itemId inventoryItemId : string)
  | EditQuantity (id : string) (value : Z)
  | EditUnitPrice (id : string) (value : Z)
  | EditDescription (id : string) (value : string)
  | ChangeItem (itemId : string)
  | Add (now : Z)
  | Remove (id : string)
  | Open (invoice : option Invoice.t) (now : Z).

(** The handler an action triggers, with the inventory the component holds. *)
Definition perform (inventory : list InventoryItem.t) (a : Action)
    (st : State) : State :=
  match a with
  | Select itemId inventoryItemId =>
      handleInventorySelect inventory itemId inventoryItemId st
  | EditQuantity id value =>
      (handleItemChange inventory id (SetQuantity value) st).1
  | EditUnitPrice id value =>
      (handleItemChange inventory id (SetUnitPrice value) st).1
  | EditDescription id value =>
      (handleItemChange inventory id (SetDescription value) st).1
  | ChangeItem itemId => changeItemClick itemId st
  | Add now => addItem now st
  | Remove id => removeItem id st
  | Open invoice now => openModal invoice now st
  end.

(** A session during which the inventory is not refetched. *)
Definition play (inventory : list InventoryItem.t) (actions : list Action)
    (st : State) : State :=
  fold_left (λ st a, perform inventory a st) actions st.

(** A line keeps within the stock the component sees: it has no inventory
    reference, or it does not exceed the stock of its item. *)
Definition withinStock (inventory : list InventoryItem.t)
    (item : InvoiceItem.t) : Prop :=
  InvoiceItem.inventory_id item = "" ∨ Spec.stockViolation inventory item = None.

(** The clock readings at which the lines of a session were added. *)
Fixpoint addTimes (actions : list Action) : list Z :=
  match actions with
  | [] => []
  | Add now :: rest => now :: addTimes rest
  | _ :: rest => addTimes rest
  end.

(** The line ids are those a session can give: "1", or a clock reading among
    [seen]. *)
Definition idsFrom (seen : list Z) (st : State) : Prop :=
  NoDup (map InvoiceItem.id (items st))
  ∧ items st ≠ []
  ∧ Forall (λ id, id = "1" ∨ ∃ now, In now seen ∧ id = Js.toString now)
           (map InvoiceItem.id (items st)).

End Session.

(** What a store lets through. *)
Module Store.
Import Editor.

(** The calls of [planned] that are issued against [remote] after [history]:
    all up to and including the first rejected one; and whether none was
    rejected. *)
Fixpoint issued (remote : Remote) (history planned : list RemoteCall)
  : list RemoteCall * bool :=
  match planned with
  | [] => ([], true)
  | call :: rest =>
      match remote history call with
      | Rejected => ([call], false)
      | Resolved _ =>
          let '(calls, ok) := issued remote (history ++ [call]) rest in
          (call :: calls, ok)
      end
  end.

(** The writes a valid submission of a new invoice sets out to make: the
    rows and the decrements are known once the store has named the
    invoice. *)
Definition planned (remote : Remote) (st : State) : list RemoteCall :=
  let data := invoiceDataOf (formData st) (items st) in
  CreateInvoice data
  :: match remote [] (CreateInvoice data) with
     | Resolved invoiceId =>
         CreateInvoiceItems (map (rowOf invoiceId) (items st))
         :: Spec.decrements (items st)
     | Rejected => []
     end.

End Store.


(** * Properties *)

(** ** The record browser *)

Section BrowserProperties.
Import Browser.

(** The two classes of the specification agree with the tests of the code
    on every column a table of the browser is configured with and that goes
    through [formatValue] (the [status] column is drawn as a badge). *)
Lemma configured_columns_date_class :
  Forall (λ cfg, Forall (λ column, column ≠ "status" →
                           isDateColumn_spec column = isDateColumn column)
                        (columns cfg))
         tableConfigs.
Proof.
  unfold tableConfigs.
  repeat first
    [ apply List.Forall_nil
    | apply List.Forall_cons; [cbn [columns] |]
    | intros Hne; first [reflexivity | done] ].
Qed.

Lemma renderCell_status v :
  renderCell "status" v = Badge (getStatusColor v) v.
Proof. reflexivity. Qed.


(** The tests of [formatValue] itself, for any column name: for a value that
    is neither null nor undefined it gives US-locale currency exactly when
    the name contains "amount", "price" or "total"; a localized date-time
    exactly when the name contains "date" or contains "at" and none of the
    currency substrings; and the plain string form in the remaining case. *)
Lemma formatValue_by_column (v : Js.value) (column : string) :
  Js.nullish v = false →
  (formatValue v column = Currency v
   ↔ Js.includes column "amount" = true ∨ Js.includes column "price" = true
     ∨ Js.includes column "total" = true)
  ∧ (formatValue v column = DateTime v
     ↔ (Js.includes column "date" = true ∨ Js.includes column "at" = true)
       ∧ Js.includes column "amount" = false
       ∧ Js.includes column "price" = false
       ∧ Js.includes column "total" = false)
  ∧ (formatValue v column = Plain v
     ↔ Js.includes column "date" = false ∧ Js.includes column "at" = false
       ∧ Js.includes column "amount" = false
       ∧ Js.includes column "price" = false
       ∧ Js.includes column "total" = false).
Proof.
  intros Hv. unfold formatValue. rewrite Hv.
  destruct (Js.includes column "amount"), (Js.includes column "price"),
    (Js.includes column "total"), (Js.includes column "date"),
    (Js.includes column "at"); cbn; intuition congruence.
Qed.

(** C9: for every cell of the record browser (a column of one of the four
    configured tables) and every value that is neither null nor undefined,
    the cell shows US-locale currency exactly when the column name contains
    "amount", "price" or "total"; a localized date-time exactly when the
    name contains "date" or ends in "_at" and contains none of the currency
    substrings; and in the remaining case the value in its plain form: the
    text [String(value)], or, for the status column, the value itself in a
    badge. *)
Theorem browser_cells_follow_column_names cfg column (v : Js.value) :
  In cfg tableConfigs →
  In column (columns cfg) →
  Js.nullish v = false →
  ((∃ className, renderCell column v = Span className (Currency v))
   ↔ Js.includes column "amount" = true ∨ Js.includes column "price" = true
     ∨ Js.includes column "total" = true)
  ∧ ((∃ className, renderCell column v = Span className (DateTime v))
     ↔ (Js.includes column "date" = true ∨ Js.endsWith column "_at" = true)
       ∧ Js.includes column "amount" = false
       ∧ Js.includes column "price" = false
       ∧ Js.includes column "total" = false)
  ∧ (((∃ className, renderCell column v = Span className (Plain v))
      ∨ renderCell column v = Badge (getStatusColor v) v)
     ↔ Js.includes column "date" = false ∧ Js.endsWith column "_at" = false
       ∧ Js.includes column "amount" = false
       ∧ Js.includes column "price" = false
       ∧ Js.includes column "total" = false).
Proof.
  intros Hcfg Hcolumn Hv. unfold tableConfigs in Hcfg.
  repeat (destruct Hcfg as [<-|Hcfg]; [cbn [columns] in Hcolumn|]);
    [..|by destruct Hcfg];
    repeat (destruct Hcolumn as [<-|Hcolumn];
            [unfold renderCell, formatValue; rewrite Hv; cbn;
             repeat split; intros;
             repeat match goal with
               | H : ∃ _, _ |- _ => destruct H
               | H : _ ∨ _ |- _ => destruct H
               | H : _ ∧ _ |- _ => destruct H
               end;
             try discriminate; repeat split; eauto|]);
    by destruct Hcolumn.
Qed.

Lemma browser_cells_follow_column_names_witness :
  (∃ className,
     renderCell "created_at" (Js.Str "2026-01-05T10:00:00Z")
     = Span className (DateTime (Js.Str "2026-01-05T10:00:00Z")))
  ↔ (Js.includes "created_at" "date" = true
     ∨ Js.endsWith "created_at" "_at" = true)
    ∧ Js.includes "created_at" "amount" = false
    ∧ Js.includes "created_at" "price" = false
    ∧ Js.includes "created_at" "total" = false.
Proof.
  refine (proj1 (proj2 (browser_cells_follow_column_names
            {| table := "profiles"; name := "User Profiles";
               columns := ["id"; "first_name"; "last_name"; "created_at"];
               editable := ["first_name"; "last_name"] |}
            "created_at" (Js.Str "2026-01-05T10:00:00Z") _ _ _)));
    [right; right; left; reflexivity
    | right; right; right; left; reflexivity
    | reflexivity].
Defined.

End BrowserProperties.

(** ** The invoice editor: editing lines *)

Section LineEdits.
Import Editor.

(** [mapNotify] is [map] on the lines, and gathers the notifications of the
    lines in order. *)
Lemma mapNotify_items f l :
  (mapNotify f l).1 = map (λ item, (f item).1) l.
Proof.
  induction l as [|item rest IH]; [done|].
  cbn. destruct (f item) as [item' ts], (mapNotify f rest) as [rest' ts'].
  cbn in *. by rewrite IH.
Qed.

Lemma mapNotify_toasts f l :
  (mapNotify f l).2 = concat (map (λ item, (f item).2) l).
Proof.
  induction l as [|item rest IH]; [done|].
  cbn. destruct (f item) as [item' ts], (mapNotify f rest) as [rest' ts'].
  cbn in *. by rewrite IH.
Qed.

Lemma handleItemChange_items inventory id edit st :
  items (handleItemChange inventory id edit st).1 =
  map (λ item, if String.eqb (InvoiceItem.id item) id
               then (changeLine inventory edit item).1 else item) (items st).
Proof.
  unfold handleItemChange.
  pose proof (mapNotify_items
    (λ item, if String.eqb (InvoiceItem.id item) id
             then changeLine inventory edit item else (item, [])) (items st))
    as Hmap.
  destruct (mapNotify _ (items st)) as [items' ts]. cbn in *. rewrite Hmap.
  apply map_ext. intros item. by destruct (String.eqb _ _).
Qed.

Lemma handleItemChange_toasts inventory id edit st :
  (handleItemChange inventory id edit st).2 =
  concat (map (λ item, if String.eqb (InvoiceItem.id item) id
                       then (changeLine inventory edit item).2 else [])
              (items st)).
Proof.
  unfold handleItemChange.
  pose proof (mapNotify_toasts
    (λ item, if String.eqb (InvoiceItem.id item) id
             then changeLine inventory edit item else (item, [])) (items st))
    as Hmap.
  destruct (mapNotify _ (items st)) as [items' ts]. cbn in *. rewrite Hmap.
  f_equal. apply map_ext. intros item. by destruct (String.eqb _ _).
Qed.

(** The quantity edit of one line, case by case. *)
Lemma changeLine_quantity inventory value item :
  changeLine inventory (SetQuantity value) item =
  match
    (if Js.truthy (InvoiceItem.inventory_id item)
     then findInventory inventory (InvoiceItem.inventory_id item) else None)
  with
  | Some inventoryItem =>
      if bool_decide (value > InventoryItem.quantity inventoryItem)
      then (InvoiceItem.mk (InvoiceItem.id item) (InvoiceItem.inventory_id item)
              (InvoiceItem.description item)
              (InventoryItem.quantity inventoryItem)
              (InvoiceItem.unit_price item)
              (InventoryItem.quantity inventoryItem * InvoiceItem.unit_price item),
            [insufficientInventory inventoryItem])
      else (InvoiceItem.mk (InvoiceItem.id item) (InvoiceItem.inventory_id item)
              (InvoiceItem.description item) value (InvoiceItem.unit_price item)
              (value * InvoiceItem.unit_price item), [])
  | None =>
      (InvoiceItem.mk (InvoiceItem.id item) (InvoiceItem.inventory_id item)
         (InvoiceItem.description item) value (InvoiceItem.unit_price item)
         (value * InvoiceItem.unit_price item), [])
  end.
Proof.
  destruct item as [i inv d q p t]. unfold changeLine. cbn.
  destruct (Js.truthy inv); [|done].
  destruct (findInventory inventory inv) as [inventoryItem|]; [|done].
  by destruct (bool_decide _).
Qed.

(** C5: selecting an inventory item that is in the inventory into the line
    [itemId] binds the line to it, copies its name into the description and
    its unit price into the unit price, sets the quantity to the minimum of
    the line's quantity and the available quantity, and the line total to
    that quantity times the copied unit price; the other lines are kept. *)
Theorem handleInventorySelect_copies_and_clamps
    inventory itemId inventoryItemId inventoryItem st (i : nat) item :
  findInventory inventory inventoryItemId = Some inventoryItem →
  items st !! i = Some item →
  let st' := handleInventorySelect inventory itemId inventoryItemId st in
  (InvoiceItem.id item = itemId →
   items st' !! i =
   Some (InvoiceItem.mk itemId inventoryItemId
           (InventoryItem.name inventoryItem)
           (Z.min (InvoiceItem.quantity item)
                  (InventoryItem.quantity inventoryItem))
           (InventoryItem.unit_price inventoryItem)
           (Z.min (InvoiceItem.quantity item)
                  (InventoryItem.quantity inventoryItem)
            * InventoryItem.unit_price inventoryItem)))
  ∧ (InvoiceItem.id item ≠ itemId → items st' !! i = Some item)
  ∧ length (items st') = length (items st).
Proof.
  intros Hfind Hi. cbn. unfold handleInventorySelect. rewrite Hfind. cbn.
  rewrite list_lookup_fmap, Hi, length_map. cbn.
  split; [|split; [|done]].
  - intros <-. by rewrite String.eqb_refl.
  - intros Hne. apply String.eqb_neq in Hne. by rewrite Hne.
Qed.

(** C3: a quantity edit on a line bound to an item of the inventory.  When
    the requested quantity exceeds the available quantity the line gets the
    available quantity and the notification "Only <available> units available
    for <name>" is raised; otherwise the line gets the requested quantity.
    Either way the line total is the resulting quantity times the unit
    price. *)
Theorem handleItemChange_quantity_clamps
    inventory id value st (i : nat) item inventoryItem :
  items st !! i = Some item →
  InvoiceItem.id item = id →
  InvoiceItem.inventory_id item ≠ "" →
  findInventory inventory (InvoiceItem.inventory_id item) = Some inventoryItem →
  let result := handleItemChange inventory id (SetQuantity value) st in
  ∃ item',
    items result.1 !! i = Some item'
    ∧ (value > InventoryItem.quantity inventoryItem →
       InvoiceItem.quantity item' = InventoryItem.quantity inventoryItem
       ∧ Toast.mk "Insufficient Inventory"
           ("Only " +:+ Js.toString (InventoryItem.quantity inventoryItem)
            +:+ " units available for " +:+ InventoryItem.name inventoryItem)
           (Some "destructive") ∈ result.2)
    ∧ (value ≤ InventoryItem.quantity inventoryItem →
       InvoiceItem.quantity item' = value)
    ∧ InvoiceItem.line_total item'
      = InvoiceItem.quantity item' * InvoiceItem.unit_price item'
    ∧ InvoiceItem.unit_price item' = InvoiceItem.unit_price item.
Proof.
  intros Hi Hid Hbound Hfind. cbn.
  assert (Htruthy : Js.truthy (InvoiceItem.inventory_id item) = true).
  { unfold Js.truthy. apply negb_true_iff. by apply String.eqb_neq. }
  pose proof (changeLine_quantity inventory value item) as Hline.
  rewrite Htruthy, Hfind in Hline.
  exists (changeLine inventory (SetQuantity value) item).1. split.
  { rewrite handleItemChange_items, list_lookup_fmap, Hi. cbn.
    by rewrite Hid, String.eqb_refl. }
  rewrite Hline. case_bool_decide as Hgt; cbn.
  - repeat split; [| lia].
    rewrite handleItemChange_toasts. apply list_elem_of_In, in_concat.
    exists [insufficientInventory inventoryItem]. split; [|by left].
    apply in_map_iff. exists item. split.
    + by rewrite Hid, String.eqb_refl, Hline.
    + by eapply list_elem_of_In, list_elem_of_lookup_2.
  - repeat split; lia.
Qed.

End LineEdits.

Section LineEditWitnesses.
Import Editor Scenario.

Lemma handleInventorySelect_copies_and_clamps_witness :
  items beamSelected !! 0%nat = Some beamLine.
Proof.
  refine (proj1 (handleInventorySelect_copies_and_clamps
                   [steelBeam] "1" "inv-1" steelBeam blank 0
                   (blankItem "1") _ _) _); reflexivity.
Defined.

Lemma handleItemChange_quantity_clamps_witness :
  ∃ item',
    items (handleItemChange [steelBeam] "1" (SetQuantity 10) beamSelected).1
      !! 0%nat = Some item'
    ∧ (10 > 5 →
       InvoiceItem.quantity item' = 5
       ∧ Toast.mk "Insufficient Inventory"
           "Only 5 units available for Steel Beam" (Some "destructive")
         ∈ (handleItemChange [steelBeam] "1" (SetQuantity 10) beamSelected).2)
    ∧ (10 ≤ 5 → InvoiceItem.quantity item' = 10)
    ∧ InvoiceItem.line_total item'
      = InvoiceItem.quantity item' * InvoiceItem.unit_price item'
    ∧ InvoiceItem.unit_price item' = 10000.
Proof.
  refine (handleItemChange_quantity_clamps
            [steelBeam] "1" 10 beamSelected 0 beamLine steelBeam _ _ _ _);
    [reflexivity | reflexivity | discriminate | reflexivity].
Defined.

End LineEditWitnesses.

(** ** The invoice editor: what holds of every line *)

Section LineInvariant.
Import Editor Scenario Spec.

Lemma changeLine_unit_price inventory value item :
  changeLine inventory (SetUnitPrice value) item =
  (InvoiceItem.mk (InvoiceItem.id item) (InvoiceItem.inventory_id item)
     (InvoiceItem.description item) (InvoiceItem.quantity item) value
     (InvoiceItem.quantity item * value), []).
Proof. by destruct item. Qed.

Lemma changeLine_description inventory value item :
  changeLine inventory (SetDescription value) item =
  (InvoiceItem.mk (InvoiceItem.id item) (InvoiceItem.inventory_id item) value
     (InvoiceItem.quantity item) (InvoiceItem.unit_price item)
     (InvoiceItem.line_total item), []).
Proof. by destruct item. Qed.

Lemma changeLine_quantity_consistent inventory value item :
  consistent (changeLine inventory (SetQuantity value) item).1.
Proof.
  rewrite changeLine_quantity.
  destruct (if Js.truthy _ then _ else _) as [inventoryItem|]; [|done].
  by destruct (bool_decide _).
Qed.

Lemma Forall_map_if {A} (P : A → Prop) (test : A → bool) (f : A → A) l :
  (∀ x, P x → test x = true → P (f x)) →
  Forall P l → Forall P (map (λ x, if test x then f x else x) l).
Proof.
  intros Hf Hl. apply Forall_fmap. eapply Forall_impl; [exact Hl|].
  intros x Hx. cbn. destruct (test x) eqn:Htest; auto.
Qed.

Lemma step_consistent st st' :
  step st st' → Forall consistent (items st) → Forall consistent (items st').
Proof.
  intros Hstep Hst. destruct Hstep.
  - unfold handleInventorySelect.
    destruct (findInventory _ _) as [inventoryItem|]; [|done]. cbn.
    apply (Forall_map_if consistent
             (λ item, String.eqb (InvoiceItem.id item) itemId)); [|done].
    by intros.
  - rewrite handleItemChange_items.
    apply (Forall_map_if consistent
             (λ item, String.eqb (InvoiceItem.id item) id)
             (λ item, (changeLine inventory (SetQuantity value) item).1));
      [|done].
    intros. apply changeLine_quantity_consistent.
  - rewrite handleItemChange_items.
    apply (Forall_map_if consistent
             (λ item, String.eqb (InvoiceItem.id item) id)
             (λ item, (changeLine inventory (SetUnitPrice value) item).1));
      [|done].
    intros item _ _. by rewrite changeLine_unit_price.
  - rewrite handleItemChange_items.
    apply (Forall_map_if consistent
             (λ item, String.eqb (InvoiceItem.id item) id)
             (λ item, (changeLine inventory (SetDescription value) item).1));
      [|done].
    intros item Hitem _. by rewrite changeLine_description.
  - cbn.
    apply (Forall_map_if consistent
             (λ item, String.eqb (InvoiceItem.id item) itemId)); [|done].
    intros item _ _. unfold consistent. cbn. lia.
  - cbn. apply Forall_app. split; [done|].
    apply Forall_singleton. by unfold consistent.
  - unfold removeItem. case_bool_decide; [|done]. cbn.
    apply List.Forall_forall. intros item [Hin _]%filter_In.
    by eapply List.Forall_forall in Hst.
  - destruct invoice as [inv|]; cbn; apply Forall_singleton;
      unfold consistent; cbn; lia.
Qed.

(** C6: in every state of an editor session (so after every inventory
    selection, quantity edit, unit-price edit and description edit), the line
    total of every line is its quantity times its unit price.  A unit-price
    edit takes the value as it is: every line with the edited id gets exactly
    that unit price and its quantity times it as line total, whatever the
    value and the inventory, and nothing is notified. *)
Theorem line_total_is_quantity_times_unit_price st :
  reachable st →
  Forall (λ item, InvoiceItem.line_total item
                  = InvoiceItem.quantity item * InvoiceItem.unit_price item)
         (items st)
  ∧ ∀ inventory id value,
      handleItemChange inventory id (SetUnitPrice value) st =
      ({| formData := formData st;
          items :=
            map (λ item,
                   if String.eqb (InvoiceItem.id item) id
                   then InvoiceItem.mk (InvoiceItem.id item)
                          (InvoiceItem.inventory_id item)
                          (InvoiceItem.description item)
                          (InvoiceItem.quantity item) value
                          (InvoiceItem.quantity item * value)
                   else item) (items st);
          inventorySearches := inventorySearches st |}, []).
Proof.
  intros Hreach. split.
  - induction Hreach as [now|st st' _ IH Hstep].
    + apply Forall_singleton. reflexivity.
    + by apply (step_consistent st st').
  - intros inventory id value.
    pose proof (handleItemChange_items inventory id (SetUnitPrice value) st)
      as Hitems.
    pose proof (handleItemChange_toasts inventory id (SetUnitPrice value) st)
      as Htoasts.
    destruct (handleItemChange _ _ _ st) as [st' ts] eqn:Hrun.
    assert (Hrest : formData st' = formData st
                    ∧ inventorySearches st' = inventorySearches st).
    { unfold handleItemChange in Hrun. destruct (mapNotify _ _).
      by inversion Hrun. }
    cbn [fst snd] in Hitems, Htoasts. destruct st' as [fd its searches].
    cbn [formData items inventorySearches] in *.
    destruct Hrest as [-> ->]. f_equal.
    + f_equal. rewrite Hitems. apply map_ext. intros item.
      by rewrite changeLine_unit_price.
    + rewrite Htoasts. clear. induction (items st) as [|item rest IH];
        [done|]. cbn [map concat]. rewrite IH, changeLine_unit_price.
      by destruct (String.eqb _ _).
Qed.

Lemma line_total_is_quantity_times_unit_price_witness :
  Forall (λ item, InvoiceItem.line_total item
                  = InvoiceItem.quantity item * InvoiceItem.unit_price item)
         (items (handleItemChange [steelBeam] "1" (SetQuantity 10)
                                  (initialState clock)).1).
Proof.
  refine (proj1 (line_total_is_quantity_times_unit_price _ _)).
  eapply reachable_step; [apply (reachable_initial clock)|].
  apply step_quantity.
Defined.

End LineInvariant.

(** ** The invoice editor: adding and removing lines *)

Section AddRemove.
Import Editor Scenario.

Lemma addItem_appends_blank now st :
  items (addItem now st) = items st ++ [blankItem (Js.toString now)].
Proof. reflexivity. Qed.

Lemma removeItem_last_line id item st :
  items st = [item] → removeItem id st = st.
Proof. intros Hone. unfold removeItem. by rewrite Hone. Qed.

(** With pairwise distinct line ids a removal leaves at least one line. *)
Lemma removeItem_distinct_ids_nonempty id st :
  NoDup (map InvoiceItem.id (items st)) →
  items st ≠ [] → items (removeItem id st) ≠ [].
Proof.
  intros Hids Hne. unfold removeItem. case_bool_decide as Hlen; [|done].
  cbn. destruct (items st) as [|a [|b rest]]; cbn in *; [done | lia |].
  apply NoDup_cons in Hids as [Hab _].
  destruct (String.eqb_spec (InvoiceItem.id a) id) as [<-|Ha]; cbn.
  - destruct (String.eqb_spec (InvoiceItem.id b) (InvoiceItem.id a)) as [Hba|];
      cbn; [|done].
    destruct Hab. rewrite Hba. left.
  - done.
Qed.

(** C8 fails on the code.  [addItem] names the new line after the clock, so
    two lines added at the same clock reading share their id, and
    [removeItem], which only asks for more than one line before it filters by
    id, then removes both: the session below (add, add, remove line "1",
    remove one of the two new lines) ends with no line at all. *)
Theorem removeItem_can_empty_the_lines :
  let st := removeItem (Js.toString clock)
              (removeItem "1" (addItem clock (addItem clock blank))) in
  reachable st ∧ items st = [].
Proof.
  split; [|reflexivity].
  repeat (eapply reachable_step;
          [| first [apply step_remove | apply step_add | apply step_open]]).
  apply (reachable_initial clock).
Qed.

End AddRemove.

(** ** The invoice editor: inventory references that do not resolve *)

Section UnresolvedReference.
Import Editor Scenario.

(** C10: for a line whose inventory reference is not in the fetched
    inventory, a quantity edit takes any requested value (the line gets it,
    with the matching line total, and the line raises no notification), and
    [validateItems] never compares its quantity with a stock: once the line
    passes the field checks, validation of the form does not depend on it. *)
Theorem unresolved_reference_skips_stock_checks inventory item :
  findInventory inventory (InvoiceItem.inventory_id item) = None →
  (∀ value,
     changeLine inventory (SetQuantity value) item =
     (InvoiceItem.mk (InvoiceItem.id item) (InvoiceItem.inventory_id item)
        (InvoiceItem.description item) value (InvoiceItem.unit_price item)
        (value * InvoiceItem.unit_price item), []))
  ∧ (∀ value st (i : nat),
       items st !! i = Some item →
       items (handleItemChange inventory (InvoiceItem.id item)
                               (SetQuantity value) st).1 !! i =
       Some (InvoiceItem.mk (InvoiceItem.id item)
               (InvoiceItem.inventory_id item) (InvoiceItem.description item)
               value (InvoiceItem.unit_price item)
               (value * InvoiceItem.unit_price item)))
  ∧ (∀ value st,
       (∀ other, other ∈ items st →
                 InvoiceItem.id other = InvoiceItem.id item → other = item) →
       (handleItemChange inventory (InvoiceItem.id item)
                         (SetQuantity value) st).2 = [])
  ∧ (∀ before after,
       InvoiceItem.inventory_id item ≠ "" →
       InvoiceItem.description item ≠ "" →
       InvoiceItem.quantity item > 0 →
       InvoiceItem.unit_price item > 0 →
       validateItems inventory (before ++ item :: after)
       = validateItems inventory (before ++ after)).
Proof.
  intros Hfind.
  assert (Hline : ∀ value,
    changeLine inventory (SetQuantity value) item =
    (InvoiceItem.mk (InvoiceItem.id item) (InvoiceItem.inventory_id item)
       (InvoiceItem.description item) value (InvoiceItem.unit_price item)
       (value * InvoiceItem.unit_price item), [])).
  { intros value. rewrite changeLine_quantity, Hfind.
    by destruct (Js.truthy _). }
  split; [exact Hline|]. split; [|split].
  - intros value st i Hi.
    rewrite handleItemChange_items, list_lookup_fmap, Hi.
    cbn [fmap option_fmap option_map].
    by rewrite String.eqb_refl, Hline.
  - intros value st Honly. rewrite handleItemChange_toasts.
    induction (items st) as [|other rest IH]; [done|].
    cbn [map concat]. rewrite IH by (intros; apply Honly; set_solver).
    destruct (String.eqb_spec (InvoiceItem.id other) (InvoiceItem.id item))
      as [Hid|]; [|done].
    rewrite (Honly other) by set_solver. by rewrite Hline.
  - intros before after Href Hdesc Hq Hp.
    induction before as [|b before IH]; cbn [app validateItems].
    + unfold Js.truthy.
      rewrite (proj2 (String.eqb_neq _ _) Href),
        (proj2 (String.eqb_neq _ _) Hdesc).
      rewrite !bool_decide_eq_false_2 by lia. cbn. by rewrite Hfind.
    + by rewrite IH.
Qed.

Lemma unresolved_reference_skips_stock_checks_witness :
  changeLine [steelBeam] (SetQuantity 9000) staleLine =
  (InvoiceItem.mk "1" "inv-gone" "Angle Iron" 9000 2500 22500000, [])
  ∧ validateItems [steelBeam] [beamLine; staleLine] = (true, []).
Proof.
  pose proof (unresolved_reference_skips_stock_checks [steelBeam] staleLine
                eq_refl) as [Hedit [_ [_ Hvalidate]]].
  split; [exact (Hedit 9000)|].
  refine (eq_trans (Hvalidate [beamLine] [] _ _ _ _) _);
    [discriminate | discriminate | reflexivity | reflexivity | reflexivity].
Defined.

End UnresolvedReference.

(** ** The invoice editor: submitting *)

Section Submission.
Import Editor Scenario Spec.

Ltac run_async :=
  unfold submit, handleSubmit, mbind, Async_bind, mret, Async_ret, toast,
    toasts, tryCatch, mutateAsync, onClose in *;
  cbn [fst snd app map] in *;
  try change (callsOf []) with (@nil RemoteCall) in *.

Lemma callsOf_app t1 t2 : callsOf (t1 ++ t2) = callsOf t1 ++ callsOf t2.
Proof. apply omap_app. Qed.

Lemma notificationsOf_app t1 t2 :
  notificationsOf (t1 ++ t2) = notificationsOf t1 ++ notificationsOf t2.
Proof. apply omap_app. Qed.

Lemma callsOf_calls cs : callsOf (map Call cs) = cs.
Proof. induction cs as [|c cs IH]; [done|]. cbn. f_equal. exact IH. Qed.

Lemma callsOf_notifications ts : callsOf (map Notify ts) = [].
Proof. by induction ts. Qed.

Lemma notificationsOf_notifications ts :
  notificationsOf (map Notify ts) = ts.
Proof. induction ts as [|t ts IH]; [done|]. cbn. f_equal. exact IH. Qed.

Lemma notificationsOf_calls cs : notificationsOf (map Call cs) = [].
Proof. by induction cs. Qed.

(** [validateItems] notifies only when it fails. *)
Lemma validateItems_true inventory items raised :
  validateItems inventory items = (true, raised) → raised = [].
Proof.
  induction items as [|item rest IH]; cbn; [by intros [= <-]|].
  destruct (_ || _); [done|].
  destruct (findInventory _ _) as [inventoryItem|]; [|done].
  by destruct (bool_decide _).
Qed.

(** [reduce] adds the line totals to 0 one after the other, in the order of
    the lines. *)
Lemma calculateSubtotal_in_order items :
  calculateSubtotal items
  = fold_left Z.add (map InvoiceItem.line_total items) 0.
Proof.
  unfold calculateSubtotal. generalize 0.
  induction items as [|item rest IH]; intros acc; [done|]. apply IH.
Qed.

(** Against any store the loop only adds decrements to the trace ... *)
Lemma reduceInventory_extends items remote trace :
  ∃ extra, (reduceInventory items remote trace).2 = trace ++ extra
           ∧ Forall isDecrement extra.
Proof.
  revert trace. induction items as [|item rest IH]; intros trace; cbn.
  - exists []. by rewrite app_nil_r.
  - run_async. destruct (_ && _).
    + destruct (remote _ _) as [id|].
      * destruct (IH (trace ++ [Call (UpdateInventoryQuantity
                     (InvoiceItem.inventory_id item)
                     (InvoiceItem.quantity item))])) as (extra & -> & Hextra).
        eexists (_ :: extra). rewrite <- app_assoc. split; [done|].
        by constructor.
      * eexists [_]. split; [done|]. by repeat constructor.
    + apply IH.
Qed.

(** ... and against a store that accepts everything it adds all of them. *)
Lemma reduceInventory_accepted items (remote : Remote) trace :
  (∀ history call, remote history call ≠ Rejected) →
  reduceInventory items remote trace
  = (Returned (), trace ++ map Call (decrements items)).
Proof.
  intros Hok. revert trace.
  induction items as [|item rest IH]; intros trace; cbn.
  - by rewrite app_nil_r.
  - run_async. unfold decrements. cbn [List.filter].
    destruct (_ && _); [|apply IH].
    destruct (remote _ _) as [id|] eqn:Hreply; [|by apply Hok in Hreply].
    rewrite IH. cbn. by rewrite <- app_assoc.
Qed.

(** C7: a submission for an existing invoice calls the store at most once,
    with the update of the invoice record (not at all when no client is
    selected): no line-item record is created and no inventory quantity is
    decremented, whatever the lines of the form and whatever the store
    answers. *)
Theorem handleSubmit_edit_updates_invoice_only remote inventory invoice st :
  callsOf (submit remote inventory (Some invoice) st) =
  if Js.truthy (FormData.client_id (formData st))
  then [UpdateInvoice (Invoice.id invoice)
                      (invoiceDataOf (formData st) (items st))]
  else [].
Proof.
  run_async. destruct (Js.truthy _); cbn; [|done].
  by destruct (remote _ _).
Qed.

Lemma invoiceRecordsWritten_app t1 t2 :
  invoiceRecordsWritten (t1 ++ t2)
  = invoiceRecordsWritten t1 ++ invoiceRecordsWritten t2.
Proof. apply omap_app. Qed.

Lemma invoiceRecordsWritten_notifications ts :
  invoiceRecordsWritten (map Notify ts) = [].
Proof. by induction ts. Qed.

Lemma invoiceRecordsWritten_decrements extra :
  Forall isDecrement extra → invoiceRecordsWritten extra = [].
Proof.
  induction 1 as [|e extra He _ IH]; [done|].
  destruct e as [t|[]|]; done.
Qed.

(** C4: a submission writes at most one invoice record (none when it is
    blocked by a missing client or, for a new invoice, by the validation of
    the lines); the record has the sum of the line totals of the current
    lines as subtotal (the line totals added to 0 one after the other in the
    order of the lines, the additions the code makes), zero as tax amount
    and the subtotal as total amount. *)
Theorem submitted_invoice_totals remote inventory invoice st :
  let data := invoiceDataOf (formData st) (items st) in
  invoiceRecordsWritten (submit remote inventory invoice st)
  = (if submitBlocked inventory invoice st then [] else [data])
  ∧ InvoiceData.subtotal data
    = fold_left Z.add (map InvoiceItem.line_total (items st)) 0
  ∧ InvoiceData.tax_amount data = 0
  ∧ InvoiceData.total_amount data = InvoiceData.subtotal data.
Proof.
  cbn zeta. split; [|by split; [apply calculateSubtotal_in_order|]].
  unfold submitBlocked. run_async.
  destruct (Js.truthy _); cbn [negb orb]; [|done].
  destruct invoice as [inv|].
  - by destruct (remote _ _).
  - destruct (validateItems inventory (items st)) as [valid raised] eqn:Hvalid.
    destruct valid; cbn [negb fst].
    + apply validateItems_true in Hvalid as ->. cbn [map app].
      destruct (remote _ _) as [newId|]; [|done].
      cbn [app]. destruct (remote _ _) as [?|]; [|done].
      cbn [app].
      destruct (reduceInventory_extends (items st) remote
        [Call (CreateInvoice (invoiceDataOf (formData st) (items st)));
         Call (CreateInvoiceItems (map (rowOf newId) (items st)))])
        as (extra & Hextra & Hdecr).
      destruct (reduceInventory _ _ _) as [[[]|] trace]; cbn [snd] in Hextra;
        subst trace; cbn [snd]; rewrite !invoiceRecordsWritten_app,
          (invoiceRecordsWritten_decrements extra Hdecr); done.
    + cbn [snd app].
      by rewrite invoiceRecordsWritten_app, invoiceRecordsWritten_notifications.
Qed.

(** A new invoice against a store that accepts every mutation: the whole
    trace of the submission. *)
Lemma submit_create_accepted (remote : Remote) inventory st newId :
  Js.truthy (FormData.client_id (formData st)) = true →
  (validateItems inventory (items st)).1 = true →
  (∀ history call, remote history call ≠ Rejected) →
  remote [] (CreateInvoice (invoiceDataOf (formData st) (items st)))
  = Resolved newId →
  submit remote inventory None st =
  Call (CreateInvoice (invoiceDataOf (formData st) (items st)))
  :: Call (CreateInvoiceItems (map (rowOf newId) (items st)))
  :: map Call (decrements (items st)) ++ [Notify (saved None); Close].
Proof.
  intros Hclient Hvalid Hok Hnew. run_async. rewrite Hclient. cbn [negb].
  destruct (validateItems inventory (items st)) as [valid raised] eqn:Hrun.
  cbn [fst] in Hvalid. subst valid.
  apply validateItems_true in Hrun as ->. cbn [map app negb].
  change (callsOf []) with (@nil RemoteCall).
  rewrite Hnew. cbn [app].
  destruct (remote _ (CreateInvoiceItems _)) as [?|] eqn:Hrows;
    [|by apply Hok in Hrows].
  rewrite reduceInventory_accepted by done. cbn [app].
  by rewrite <- !app_assoc.
Qed.

(** When the store rejects the invoice record nothing else is asked of it. *)
Lemma submit_create_rejected (remote : Remote) inventory st :
  Js.truthy (FormData.client_id (formData st)) = true →
  (validateItems inventory (items st)).1 = true →
  remote [] (CreateInvoice (invoiceDataOf (formData st) (items st)))
  = Rejected →
  submit remote inventory None st =
  [Call (CreateInvoice (invoiceDataOf (formData st) (items st)));
   Notify saveError].
Proof.
  intros Hclient Hvalid Hnew. run_async. rewrite Hclient. cbn [negb].
  destruct (validateItems inventory (items st)) as [valid raised] eqn:Hrun.
  cbn [fst] in Hvalid. subst valid.
  apply validateItems_true in Hrun as ->. cbn [map app negb].
  change (callsOf []) with (@nil RemoteCall).
  by rewrite Hnew.
Qed.

(** C1: a submission that creates an invoice (no invoice supplied, a client
    selected, the lines valid) against a store that accepts each write,
    answering the first one with the identity [newId], asks the store for
    exactly these writes in this order: the invoice record; one batch with a
    row for every line, each carrying [newId]; and, line by line, a decrement
    of the line's inventory item by the line's quantity for the lines that
    have an inventory reference and a positive quantity, and none for the
    other lines. *)
Theorem handleSubmit_create_writes_in_order
    (remote : Remote) inventory st newId :
  Js.truthy (FormData.client_id (formData st)) = true →
  (validateItems inventory (items st)).1 = true →
  (∀ history call, remote history call ≠ Rejected) →
  remote [] (CreateInvoice (invoiceDataOf (formData st) (items st)))
  = Resolved newId →
  callsOf (submit remote inventory None st) =
  CreateInvoice (invoiceDataOf (formData st) (items st))
  :: CreateInvoiceItems
       (map (λ item, InvoiceItemRow.mk newId (InvoiceItem.description item)
                       (InvoiceItem.quantity item)
                       (InvoiceItem.unit_price item)
                       (InvoiceItem.line_total item))
            (items st))
  :: map (λ item, UpdateInventoryQuantity (InvoiceItem.inventory_id item)
                                          (InvoiceItem.quantity item))
         (List.filter
            (λ item, negb (String.eqb (InvoiceItem.inventory_id item) "")
                     && bool_decide (InvoiceItem.quantity item > 0))
            (items st)).
Proof.
  intros Hclient Hvalid Hok Hnew.
  rewrite (submit_create_accepted remote inventory st newId) by done.
  change (callsOf (Call ?a :: Call ?b :: ?rest))
    with (a :: b :: callsOf rest).
  rewrite callsOf_app, callsOf_calls. cbn [callsOf omap list_omap].
  by rewrite app_nil_r.
Qed.

Lemma handleSubmit_create_writes_in_order_witness :
  callsOf (submit accepting [steelBeam] None
             (withClient "client-1" beamSelected)) =
  [CreateInvoice
     (InvoiceData.mk "client-1" "INV-0123"
        (format_yyyy_MM_dd (DateOfMillis clock))
        (format_yyyy_MM_dd (DateOfMillis (clock + thirtyDays)))
        "" draft 10000 0 10000);
   CreateInvoiceItems [InvoiceItemRow.mk "inv-new" "Steel Beam" 1 10000 10000];
   UpdateInventoryQuantity "inv-1" 1].
Proof.
  refine (handleSubmit_create_writes_in_order accepting [steelBeam]
            (withClient "client-1" beamSelected) "inv-new" _ _ _ _);
    [reflexivity | reflexivity | discriminate | reflexivity].
Defined.

(** The line rules of validation, in the words of the specification. *)
Lemma offending_true inventory item :
  offending inventory item = true
  ↔ InvoiceItem.inventory_id item = "" ∨ InvoiceItem.description item = ""
    ∨ InvoiceItem.quantity item ≤ 0 ∨ InvoiceItem.unit_price item ≤ 0
    ∨ ∃ inventoryItem,
        findInventory inventory (InvoiceItem.inventory_id item)
        = Some inventoryItem
        ∧ InvoiceItem.quantity item > InventoryItem.quantity inventoryItem.
Proof.
  unfold offending, fieldViolation, stockViolation.
  rewrite !orb_true_iff, !String.eqb_eq, !bool_decide_eq_true.
  destruct (findInventory _ _) as [inventoryItem|].
  - case_bool_decide as Hgt.
    + split; [|tauto]. intros _. do 4 right. by exists inventoryItem.
    + split; [intros [H|H]; [tauto|done]|].
      intros [H|[H|[H|[H|(inv & [= <-] & H)]]]]; tauto.
  - split; [intros [H|H]; [tauto|done]|].
    intros [H|[H|[H|[H|(inv & [=] & _)]]]]; tauto.
Qed.

(** [validateItems] stops at the first offending line; it notifies when that
    line passes the field rules and so fails on the stock. *)
Lemma validateItems_first_offending inventory items bad :
  List.find (offending inventory) items = Some bad →
  validateItems inventory items =
  (false, if fieldViolation bad then []
          else match stockViolation inventory bad with
               | Some inventoryItem => [insufficientInventory inventoryItem]
               | None => []
               end).
Proof.
  induction items as [|item rest IH]; [done|]. cbn [List.find validateItems].
  unfold Js.truthy. rewrite !negb_involutive.
  fold (fieldViolation item).
  destruct (offending inventory item) eqn:Hoff; unfold offending in Hoff.
  - intros [= <-]. destruct (fieldViolation item); [done|].
    cbn [orb] in Hoff. unfold stockViolation in *.
    destruct (findInventory _ _) as [inventoryItem|]; [|done].
    by destruct (bool_decide _).
  - intros Hfind. apply orb_false_iff in Hoff as [-> Hstock].
    unfold stockViolation in Hstock.
    destruct (findInventory _ _) as [inventoryItem|]; [|by apply IH].
    destruct (bool_decide _); [done | by apply IH].
Qed.

Lemma find_first {A} (p : A → bool) l :
  Exists (λ x, p x = true) l → ∃ x, List.find p l = Some x.
Proof.
  induction 1 as [x l Hx|x l _ IH]; cbn.
  - rewrite Hx. by exists x.
  - destruct (p x); [by exists x | exact IH].
Qed.

(** C2 (amended): when some line of a new invoice lacks an inventory reference or a
    description, has a quantity or a unit price that is not positive, or asks
    for more than the available quantity of its inventory item, the
    submission is blocked: the store is not called and the modal is not
    closed.  With [bad] the first such line in the order of the form, and a
    client selected, the notifications are: the generic "Please select
    inventory items for all line items" alone when [bad] breaks a field rule;
    "Only <available> units available for <name>", naming the inventory item
    of [bad], followed by the generic one, when [bad] only exceeds the stock.
    Without a client the only notification is "Please select a client". *)
Theorem invalid_lines_block_submission remote inventory st :
  Exists (λ item,
            InvoiceItem.inventory_id item = "" ∨ InvoiceItem.description item = ""
            ∨ InvoiceItem.quantity item ≤ 0 ∨ InvoiceItem.unit_price item ≤ 0
            ∨ ∃ inventoryItem,
                findInventory inventory (InvoiceItem.inventory_id item)
                = Some inventoryItem
                ∧ InvoiceItem.quantity item
                  > InventoryItem.quantity inventoryItem)
         (items st) →
  let trace := submit remote inventory None st in
  callsOf trace = []
  ∧ (Close ∉ trace)
  ∧ ∃ bad,
      List.find (offending inventory) (items st) = Some bad
      ∧ notificationsOf trace =
        if Js.truthy (FormData.client_id (formData st)) then
          if fieldViolation bad then [selectItemsError]
          else match stockViolation inventory bad with
               | Some inventoryItem =>
                   [Toast.mk "Insufficient Inventory"
                      ("Only "
                       +:+ Js.toString (InventoryItem.quantity inventoryItem)
                       +:+ " units available for "
                       +:+ InventoryItem.name inventoryItem)
                      (Some "destructive");
                    selectItemsError]
               | None => [selectItemsError]
               end
        else [selectClientError].
Proof.
  intros Hbad. cbn zeta.
  destruct (find_first (offending inventory) (items st)) as [bad Hfirst].
  { eapply Exists_impl; [exact Hbad|]. intros item. apply offending_true. }
  pose proof (validateItems_first_offending _ _ _ Hfirst) as Hvalidate.
  assert (Htrace : submit remote inventory None st =
    if Js.truthy (FormData.client_id (formData st)) then
      map Notify (validateItems inventory (items st)).2
      ++ [Notify selectItemsError]
    else [Notify selectClientError]).
  { run_async. destruct (Js.truthy _); cbn [negb]; [|done].
    by rewrite Hvalidate. }
  rewrite Htrace, Hvalidate. cbn [snd].
  destruct (Js.truthy _).
  - rewrite callsOf_app, notificationsOf_app, callsOf_notifications,
      notificationsOf_notifications.
    split; [done|]. split.
    + intros [Hin|Hin]%elem_of_app; [|by apply list_elem_of_singleton in Hin].
      apply list_elem_of_fmap in Hin as (t & [=] & _).
    + exists bad. split; [done|].
      destruct (fieldViolation bad); [done|].
      by destruct (stockViolation inventory bad).
  - split; [done|]. split; [|by exists bad].
    by intros Hin%list_elem_of_singleton.
Qed.

Lemma invalid_lines_block_submission_witness :
  let st := withClient "client-1"
              (withItems [InvoiceItem.mk "1" "inv-1" "Steel Beam" 10 10000
                                         100000] blank) in
  callsOf (submit accepting [steelBeam] None st) = []
  ∧ notificationsOf (submit accepting [steelBeam] None st) =
    [Toast.mk "Insufficient Inventory" "Only 5 units available for Steel Beam"
              (Some "destructive");
     Toast.mk "Error" "Please select inventory items for all line items"
              (Some "destructive")].
Proof.
  cbn zeta.
  destruct (invalid_lines_block_submission accepting [steelBeam]
    (withClient "client-1"
       (withItems [InvoiceItem.mk "1" "inv-1" "Steel Beam" 10 10000 100000]
                  blank)))
    as (Hcalls & _ & bad & Hbad & Hnotes).
  - apply Exists_cons_hd. do 4 right. exists steelBeam.
    split; [reflexivity|]. reflexivity.
  - split; [exact Hcalls|].
    injection Hbad as <-. exact Hnotes.
Defined.

End Submission.

(** ** The invoice editor: more on the line handlers *)

Section LineHandlers.
Import Editor Scenario Spec Session.

Lemma map_if_never {A} (test : A → bool) (f : A → A) l :
  Forall (λ x, test x = false) l →
  map (λ x, if test x then f x else x) l = l.
Proof.
  induction 1 as [|x l Hx _ IH]; [done|]. cbn. by rewrite Hx, IH.
Qed.

Lemma filter_never {A} (test : A → bool) l :
  Forall (λ x, test x = false) l →
  List.filter (λ x, negb (test x)) l = l.
Proof.
  induction 1 as [|x l Hx _ IH]; [done|]. cbn. by rewrite Hx, IH.
Qed.

Lemma eqb_never id (l : list InvoiceItem.t) :
  Forall (λ item, InvoiceItem.id item ≠ id) l →
  Forall (λ item, String.eqb (InvoiceItem.id item) id = false) l.
Proof.
  intros H. eapply Forall_impl; [exact H|]. intros item. apply String.eqb_neq.
Qed.

(** X1: A handler called with the id of no line changes no line: an edit leaves
    the whole state as it is and notifies nothing, so does "Change Item"; a
    selection and a removal leave the lines as they are. *)
Theorem handlers_ignore_unknown_line_id inventory id st :
  Forall (λ item, InvoiceItem.id item ≠ id) (items st) →
  (∀ edit, handleItemChange inventory id edit st = (st, []))
  ∧ changeItemClick id st = st
  ∧ (∀ inventoryItemId,
       items (handleInventorySelect inventory id inventoryItemId st)
       = items st)
  ∧ items (removeItem id st) = items st.
Proof.
  intros Hnone%eqb_never. repeat split.
  - intros edit.
    pose proof (handleItemChange_items inventory id edit st) as Hitems.
    pose proof (handleItemChange_toasts inventory id edit st) as Htoasts.
    rewrite (map_if_never (λ item, String.eqb (InvoiceItem.id item) id)
               (λ item, (changeLine inventory edit item).1)) in Hitems by done.
    assert (Hrest : formData (handleItemChange inventory id edit st).1
                    = formData st
                    ∧ inventorySearches (handleItemChange inventory id edit st).1
                      = inventorySearches st).
    { unfold handleItemChange. by destruct (mapNotify _ _). }
    destruct (handleItemChange inventory id edit st) as [[fd its ss] ts].
    destruct st as [fd0 its0 ss0]. cbn in *. destruct Hrest as [-> ->].
    subst its. f_equal. rewrite Htoasts. clear -Hnone.
    induction Hnone as [|item l Hitem _ IH]; [done|]. cbn.
    by rewrite Hitem.
  - unfold changeItemClick.
    rewrite (map_if_never (λ item, String.eqb (InvoiceItem.id item) id)
               (λ item, InvoiceItem.mk (InvoiceItem.id item) "" ""
                          (InvoiceItem.quantity item) 0 0)) by done.
    by destruct st.
  - intros inventoryItemId. unfold handleInventorySelect.
    destruct (findInventory _ _) as [inventoryItem|]; [|done]. cbn.
    by rewrite (map_if_never (λ item, String.eqb (InvoiceItem.id item) id)
                  (selectLine inventoryItemId inventoryItem)).
  - unfold removeItem. case_bool_decide; [|done]. cbn.
    by apply (filter_never (λ item, String.eqb (InvoiceItem.id item) id)).
Qed.

Lemma handlers_ignore_unknown_line_id_witness :
  handleItemChange [steelBeam] "2" (SetQuantity 7) beamSelected
  = (beamSelected, [])
  ∧ items (removeItem "2" beamSelected) = items beamSelected.
Proof.
  destruct (handlers_ignore_unknown_line_id [steelBeam] "2" beamSelected)
    as (Hedit & _ & _ & Hremove).
  - apply List.Forall_cons; [discriminate | apply List.Forall_nil].
  - split; [exact (Hedit (SetQuantity 7)) | exact Hremove].
Defined.

Lemma map_if_ids (test : InvoiceItem.t → bool) f l :
  (∀ item, InvoiceItem.id (f item) = InvoiceItem.id item) →
  map InvoiceItem.id (map (λ item, if test item then f item else item) l)
  = map InvoiceItem.id l.
Proof.
  intros Hf. rewrite map_map. apply map_ext. intros item.
  by destruct (test item).
Qed.

(** X2: Editing never adds, drops, reorders or renames a line: a quantity, unit
    price or description edit, an inventory selection and "Change Item" all
    keep the list of line ids. *)
Theorem editing_keeps_the_line_ids inventory id st :
  (∀ value, map InvoiceItem.id
              (items (handleItemChange inventory id (SetQuantity value) st).1)
            = map InvoiceItem.id (items st))
  ∧ (∀ value, map InvoiceItem.id
                (items (handleItemChange inventory id (SetUnitPrice value) st).1)
              = map InvoiceItem.id (items st))
  ∧ (∀ value, map InvoiceItem.id
                (items (handleItemChange inventory id (SetDescription value)
                                         st).1)
              = map InvoiceItem.id (items st))
  ∧ (∀ inventoryItemId,
       map InvoiceItem.id
         (items (handleInventorySelect inventory id inventoryItemId st))
       = map InvoiceItem.id (items st))
  ∧ map InvoiceItem.id (items (changeItemClick id st))
    = map InvoiceItem.id (items st).
Proof.
  repeat split; intros.
  - rewrite handleItemChange_items.
    apply (map_if_ids (λ item, String.eqb (InvoiceItem.id item) id)
             (λ item, (changeLine inventory (SetQuantity value) item).1)).
    intros item. rewrite changeLine_quantity.
    destruct (if Js.truthy _ then _ else _); [|done].
    by destruct (bool_decide _).
  - rewrite handleItemChange_items.
    apply (map_if_ids (λ item, String.eqb (InvoiceItem.id item) id)
             (λ item, (changeLine inventory (SetUnitPrice value) item).1)).
    intros item. by rewrite changeLine_unit_price.
  - rewrite handleItemChange_items.
    apply (map_if_ids (λ item, String.eqb (InvoiceItem.id item) id)
             (λ item, (changeLine inventory (SetDescription value) item).1)).
    intros item. by rewrite changeLine_description.
  - unfold handleInventorySelect.
    destruct (findInventory _ _) as [inventoryItem|]; [|done]. cbn.
    by apply (map_if_ids (λ item, String.eqb (InvoiceItem.id item) id)).
  - cbn. by apply (map_if_ids (λ item, String.eqb (InvoiceItem.id item) id)).
Qed.

End LineHandlers.

(** ** The invoice editor: how the handlers compose *)

Section HandlerComposition.
Import Editor Scenario Spec Session.

Lemma handleItemChange_unfold inventory id edit st :
  handleItemChange inventory id edit st =
  ({| formData := formData st;
      items := map (λ item, if String.eqb (InvoiceItem.id item) id
                            then (changeLine inventory edit item).1 else item)
                   (items st);
      inventorySearches := inventorySearches st |},
   concat (map (λ item, if String.eqb (InvoiceItem.id item) id
                        then (changeLine inventory edit item).2 else [])
               (items st))).
Proof.
  pose proof (handleItemChange_items inventory id edit st) as Hitems.
  pose proof (handleItemChange_toasts inventory id edit st) as Htoasts.
  assert (Hrest : formData (handleItemChange inventory id edit st).1
                  = formData st
                  ∧ inventorySearches (handleItemChange inventory id edit st).1
                    = inventorySearches st).
  { unfold handleItemChange. by destruct (mapNotify _ _). }
  destruct (handleItemChange inventory id edit st) as [[fd its ss] ts].
  cbn [fst snd formData items inventorySearches] in *.
  destruct Hrest as [-> ->]. by subst.
Qed.

(** Two edits of the lines [id], one after the other, line by line. *)
Lemma handleItemChange_twice inventory id first second st :
  (∀ item, InvoiceItem.id (changeLine inventory first item).1
           = InvoiceItem.id item) →
  handleItemChange inventory id second
    (handleItemChange inventory id first st).1 =
  ({| formData := formData st;
      items := map (λ item,
                 if String.eqb (InvoiceItem.id item) id
                 then (changeLine inventory second
                         (changeLine inventory first item).1).1
                 else item) (items st);
      inventorySearches := inventorySearches st |},
   concat (map (λ item,
             if String.eqb (InvoiceItem.id item) id
             then (changeLine inventory second
                     (changeLine inventory first item).1).2
             else []) (items st))).
Proof.
  intros Hid. rewrite (handleItemChange_unfold inventory id second).
  rewrite (handleItemChange_unfold inventory id first).
  cbn [fst formData items inventorySearches]. rewrite !map_map.
  f_equal; [f_equal|f_equal]; apply map_ext; intros item;
    destruct (String.eqb (InvoiceItem.id item) id) eqn:Hitem;
    by rewrite ?Hid, Hitem.
Qed.

Lemma changeLine_quantity_id inventory value item :
  InvoiceItem.id (changeLine inventory (SetQuantity value) item).1
  = InvoiceItem.id item.
Proof.
  rewrite changeLine_quantity.
  destruct (if Js.truthy _ then _ else _); [|done].
  by destruct (bool_decide _).
Qed.

Lemma changeLine_quantity_again inventory first second item :
  changeLine inventory (SetQuantity second)
    (changeLine inventory (SetQuantity first) item).1
  = changeLine inventory (SetQuantity second) item.
Proof.
  destruct item as [i ref d q p t].
  rewrite (changeLine_quantity inventory first).
  cbn [InvoiceItem.inventory_id InvoiceItem.id InvoiceItem.description
       InvoiceItem.unit_price].
  destruct (if Js.truthy ref then findInventory inventory ref else None)
    as [inventoryItem|] eqn:Hbound.
  - destruct (bool_decide (first > _)); cbn [fst];
      rewrite !changeLine_quantity;
      cbn [InvoiceItem.inventory_id InvoiceItem.id InvoiceItem.description
           InvoiceItem.unit_price];
      by rewrite Hbound.
  - cbn [fst]. rewrite !changeLine_quantity.
    cbn [InvoiceItem.inventory_id InvoiceItem.id InvoiceItem.description
         InvoiceItem.unit_price].
    by rewrite Hbound.
Qed.

(** X3: The last edit of a field wins: a quantity edit (with the inventory
    unchanged in between) or a unit-price edit gives the state and the
    notifications it would give without the earlier edit of the same field
    of the same lines. *)
Theorem last_edit_wins inventory id first second st :
  handleItemChange inventory id (SetQuantity second)
    (handleItemChange inventory id (SetQuantity first) st).1
  = handleItemChange inventory id (SetQuantity second) st
  ∧ handleItemChange inventory id (SetUnitPrice second)
      (handleItemChange inventory id (SetUnitPrice first) st).1
    = handleItemChange inventory id (SetUnitPrice second) st.
Proof.
  split.
  - rewrite handleItemChange_twice by apply changeLine_quantity_id.
    rewrite (handleItemChange_unfold inventory id (SetQuantity second) st).
    f_equal; [f_equal|f_equal]; apply map_ext; intros item;
      by rewrite changeLine_quantity_again.
  - rewrite handleItemChange_twice
      by (intros; by rewrite changeLine_unit_price).
    rewrite (handleItemChange_unfold inventory id (SetUnitPrice second) st).
    f_equal. f_equal. apply map_ext. intros item.
    by rewrite !changeLine_unit_price.
Qed.

(** X4: A quantity edit and a unit-price edit of the same lines commute: either
    order gives the same state and the same notifications. *)
Theorem quantity_and_unit_price_edits_commute inventory id quantity price st :
  let q := handleItemChange inventory id (SetQuantity quantity) st in
  let qp := handleItemChange inventory id (SetUnitPrice price) q.1 in
  let p := handleItemChange inventory id (SetUnitPrice price) st in
  let pq := handleItemChange inventory id (SetQuantity quantity) p.1 in
  qp.1 = pq.1 ∧ q.2 ++ qp.2 = p.2 ++ pq.2.
Proof.
  cbn zeta.
  rewrite (handleItemChange_twice inventory id (SetQuantity quantity)
             (SetUnitPrice price)) by apply changeLine_quantity_id.
  rewrite (handleItemChange_twice inventory id (SetUnitPrice price)
             (SetQuantity quantity))
    by (intros; by rewrite changeLine_unit_price).
  rewrite (handleItemChange_unfold inventory id (SetQuantity quantity) st),
    (handleItemChange_unfold inventory id (SetUnitPrice price) st).
  cbn [fst snd].
  assert (Hline : ∀ item,
    (changeLine inventory (SetUnitPrice price)
       (changeLine inventory (SetQuantity quantity) item).1).1
    = (changeLine inventory (SetQuantity quantity)
         (changeLine inventory (SetUnitPrice price) item).1).1
    ∧ (changeLine inventory (SetQuantity quantity)
         (changeLine inventory (SetUnitPrice price) item).1).2
      = (changeLine inventory (SetQuantity quantity) item).2).
  { intros item. rewrite !changeLine_unit_price.
    rewrite (changeLine_quantity inventory quantity item).
    rewrite changeLine_quantity.
    cbn [fst snd InvoiceItem.inventory_id InvoiceItem.id
         InvoiceItem.description InvoiceItem.unit_price InvoiceItem.quantity].
    destruct (if Js.truthy (InvoiceItem.inventory_id item) then _ else _)
      as [inventoryItem|]; [|done].
    by destruct (bool_decide _). }
  split.
  - f_equal. apply map_ext. intros item.
    destruct (String.eqb _ _); [apply Hline | done].
  - assert (Hnone : ∀ l : list InvoiceItem.t,
      concat (map (λ item, if String.eqb (InvoiceItem.id item) id
                then (changeLine inventory (SetUnitPrice price) item).2
                else []) l) = []).
    { induction l as [|item l IH]; [done|]. cbn [map concat].
      rewrite IH, changeLine_unit_price. by destruct (String.eqb _ _). }
    assert (Hnone' : ∀ l : list InvoiceItem.t,
      concat (map (λ item, if String.eqb (InvoiceItem.id item) id
                then (changeLine inventory (SetUnitPrice price)
                        (changeLine inventory (SetQuantity quantity) item).1).2
                else []) l) = []).
    { induction l as [|item l IH]; [done|]. cbn [map concat].
      rewrite IH, changeLine_unit_price. by destruct (String.eqb _ _). }
    rewrite Hnone, Hnone', app_nil_r. cbn [app]. f_equal.
    apply map_ext. intros item.
    destruct (String.eqb _ _); [|done]. symmetry. apply Hline.
Qed.

(** X5: Selecting an inventory item a second time changes nothing, also with
    "Change Item" clicked in between: the quantity was already clamped to
    the stock of the item. *)
Theorem reselecting_the_same_item inventory itemId inventoryItemId st :
  is_Some (findInventory inventory inventoryItemId) →
  let selected := handleInventorySelect inventory itemId inventoryItemId st in
  handleInventorySelect inventory itemId inventoryItemId selected = selected
  ∧ handleInventorySelect inventory itemId inventoryItemId
      (changeItemClick itemId selected) = selected.
Proof.
  intros [inventoryItem Hfind]. cbn zeta.
  unfold handleInventorySelect, changeItemClick. rewrite Hfind.
  cbn [formData items inventorySearches]. rewrite !map_map, insert_insert_eq.
  split; f_equal; apply map_ext; intros item;
    destruct (String.eqb (InvoiceItem.id item) itemId) eqn:Hitem;
    unfold selectLine, calculateItemTotal;
    cbn [InvoiceItem.id InvoiceItem.quantity];
    rewrite ?Hitem; try done;
    cbn [InvoiceItem.id InvoiceItem.quantity];
    rewrite <- ?Z.min_assoc, ?Z.min_id, ?Hitem; done.
Qed.

Lemma reselecting_the_same_item_witness :
  handleInventorySelect [steelBeam] "1" "inv-1"
    (changeItemClick "1" beamSelected) = beamSelected.
Proof.
  refine (proj2 (reselecting_the_same_item [steelBeam] "1" "inv-1" blank _)).
  by exists steelBeam.
Defined.

(** X6: Adding a line and removing it again gives back the lines there were,
    when the form had a line and the new id (the clock reading) was not the
    id of one of them. *)
Theorem addItem_then_removeItem now st :
  items st ≠ [] →
  Forall (λ item, InvoiceItem.id item ≠ Js.toString now) (items st) →
  items (removeItem (Js.toString now) (addItem now st)) = items st.
Proof.
  intros Hne Hfresh%eqb_never. unfold removeItem, addItem.
  cbn [items]. rewrite bool_decide_eq_true_2.
  - cbn [items]. rewrite List.filter_app.
    rewrite (filter_never (λ item, String.eqb (InvoiceItem.id item)
                                     (Js.toString now))) by done.
    cbn. by rewrite String.eqb_refl, app_nil_r.
  - rewrite length_app. cbn. destruct (items st); [done|]. cbn. lia.
Qed.

Lemma addItem_then_removeItem_witness :
  items (removeItem (Js.toString clock) (addItem clock beamSelected))
  = items beamSelected.
Proof.
  refine (addItem_then_removeItem clock beamSelected _ _).
  - discriminate.
  - apply List.Forall_cons; [discriminate | apply List.Forall_nil].
Defined.

End HandlerComposition.

(** ** The invoice editor: validation *)

Section Validation.
Import Editor Scenario Spec Session Picker.

Lemma validateItems_cons inventory item rest :
  validateItems inventory (item :: rest) =
  if offending inventory item
  then (false, if fieldViolation item then []
               else match stockViolation inventory item with
                    | Some inventoryItem => [insufficientInventory inventoryItem]
                    | None => []
                    end)
  else validateItems inventory rest.
Proof.
  destruct (offending inventory item) eqn:Hoff.
  - apply validateItems_first_offending. cbn. by rewrite Hoff.
  - cbn [validateItems]. unfold offending in Hoff.
    apply orb_false_iff in Hoff as [Hfield Hstock].
    unfold fieldViolation in Hfield. unfold Js.truthy.
    rewrite !negb_involutive, Hfield. unfold stockViolation in Hstock.
    destruct (findInventory _ _) as [inventoryItem|]; [|done].
    destruct (bool_decide (InvoiceItem.quantity item > _));
      [by cbn in Hstock | done].
Qed.

Lemma offending_false inventory item :
  offending inventory item = false
  ↔ InvoiceItem.inventory_id item ≠ "" ∧ InvoiceItem.description item ≠ ""
    ∧ InvoiceItem.quantity item > 0 ∧ InvoiceItem.unit_price item > 0
    ∧ ∀ inventoryItem,
        findInventory inventory (InvoiceItem.inventory_id item)
        = Some inventoryItem →
        InvoiceItem.quantity item ≤ InventoryItem.quantity inventoryItem.
Proof.
  unfold offending, fieldViolation, stockViolation.
  rewrite !orb_false_iff, !String.eqb_neq, !bool_decide_eq_false. split.
  - intros [[[[Href Hdesc] Hq] Hp] Hstock]. repeat split; [done|done|lia|lia|].
    intros inventoryItem Hfind. rewrite Hfind in Hstock.
    case_bool_decide; [done|lia].
  - intros (Href & Hdesc & Hq & Hp & Hstock).
    repeat split; [done|done|lia|lia|].
    destruct (findInventory _ _) as [inventoryItem|]; [|done].
    specialize (Hstock _ eq_refl). by rewrite bool_decide_eq_false_2 by lia.
Qed.

(** X7: [validateItems] accepts a form exactly when every line has an inventory
    reference and a description, a positive quantity and a positive unit
    price, and asks for no more than the stock of its inventory item when
    the reference is found in the inventory.  A form without lines is
    accepted. *)
Theorem validateItems_accepts_exactly inventory items :
  (validateItems inventory items).1 = true
  ↔ Forall (λ item,
       InvoiceItem.inventory_id item ≠ "" ∧ InvoiceItem.description item ≠ ""
       ∧ InvoiceItem.quantity item > 0 ∧ InvoiceItem.unit_price item > 0
       ∧ ∀ inventoryItem,
           findInventory inventory (InvoiceItem.inventory_id item)
           = Some inventoryItem →
           InvoiceItem.quantity item ≤ InventoryItem.quantity inventoryItem)
     items.
Proof.
  induction items as [|item rest IH].
  - split; [intros _; apply Forall_nil_2 | done].
  - rewrite validateItems_cons, Forall_cons, <- offending_false.
    destruct (offending inventory item); cbn [fst].
    + split; [done | by intros [? _]].
    + rewrite IH. tauto.
Qed.

(** X8: Validation looks at the lines one by one, in order, and stops at the
    first line it rejects: two lists of lines are accepted together exactly
    when each is, and the notifications are those of the first list that is
    rejected. *)
Theorem validateItems_app inventory front back :
  validateItems inventory (front ++ back) =
  if (validateItems inventory front).1 then validateItems inventory back
  else validateItems inventory front.
Proof.
  induction front as [|item rest IH]; [done|].
  cbn [app]. rewrite !validateItems_cons.
  destruct (offending inventory item); [done | exact IH].
Qed.

(** X9: [validateItems] raises at most one notification, and none when it
    accepts. *)
Theorem validateItems_notifies_at_most_once inventory items :
  (length (validateItems inventory items).2 ≤ 1)%nat
  ∧ ((validateItems inventory items).1 = true →
     (validateItems inventory items).2 = []).
Proof.
  split.
  - induction items as [|item rest IH]; [cbn; lia|].
    rewrite validateItems_cons. destruct (offending inventory item); [|done].
    cbn [snd]. destruct (fieldViolation item); [cbn; lia|].
    destruct (stockViolation inventory item); cbn; lia.
  - destruct (validateItems inventory items) as [valid raised] eqn:Hrun.
    cbn. intros ->. by apply validateItems_true in Hrun.
Qed.

Lemma validateItems_notifies_at_most_once_witness :
  validateItems [steelBeam] [beamLine; staleLine] = (true, []).
Proof.
  pose proof (proj2 (validateItems_notifies_at_most_once [steelBeam]
                       [beamLine; staleLine]) eq_refl) as Hnone.
  exact (eq_trans (surjective_pairing _) (f_equal2 pair eq_refl Hnone)).
Defined.

End Validation.

(** ** The invoice editor: sessions *)

Section Sessions.
Import Editor Scenario Spec Session Picker.

Lemma withinStock_no_notification inventory items :
  Forall (withinStock inventory) items →
  (validateItems inventory items).2 = [].
Proof.
  induction 1 as [|item rest Hitem _ IH]; [done|].
  rewrite validateItems_cons. destruct (offending inventory item); [|done].
  cbn [snd]. destruct (fieldViolation item) eqn:Hfield; [done|].
  destruct Hitem as [Href| ->]; [|done].
  unfold fieldViolation in Hfield. by rewrite Href in Hfield.
Qed.

Lemma selectLine_withinStock inventory inventoryItemId inventoryItem item :
  findInventory inventory inventoryItemId = Some inventoryItem →
  withinStock inventory (selectLine inventoryItemId inventoryItem item).
Proof.
  intros Hfind. right. unfold stockViolation, selectLine.
  cbn [InvoiceItem.inventory_id InvoiceItem.quantity]. rewrite Hfind.
  by rewrite bool_decide_eq_false_2 by lia.
Qed.

Lemma changeLine_quantity_withinStock inventory value item :
  withinStock inventory (changeLine inventory (SetQuantity value) item).1.
Proof.
  rewrite changeLine_quantity. unfold Js.truthy.
  destruct (String.eqb_spec (InvoiceItem.inventory_id item) "") as [Href|_];
    cbn [negb]; [by left|].
  right. unfold stockViolation.
  destruct (findInventory inventory (InvoiceItem.inventory_id item))
    as [inventoryItem|] eqn:Hfind.
  - case_bool_decide; cbn [fst InvoiceItem.inventory_id InvoiceItem.quantity];
      rewrite Hfind; by rewrite bool_decide_eq_false_2 by lia.
  - cbn [fst InvoiceItem.inventory_id]. by rewrite Hfind.
Qed.

Lemma perform_withinStock inventory a st :
  Forall (withinStock inventory) (items st) →
  Forall (withinStock inventory) (items (perform inventory a st)).
Proof.
  intros Hst. destruct a as [itemId inventoryItemId|id value|id value|id value
                            |itemId|now|id|invoice now]; cbn [perform].
  - unfold handleInventorySelect.
    destruct (findInventory _ _) as [inventoryItem|] eqn:Hfind; [|done]. cbn.
    apply (Forall_map_if (withinStock inventory)
             (λ item, String.eqb (InvoiceItem.id item) itemId)); [|done].
    intros. by apply selectLine_withinStock.
  - rewrite handleItemChange_items.
    apply (Forall_map_if (withinStock inventory)
             (λ item, String.eqb (InvoiceItem.id item) id)
             (λ item, (changeLine inventory (SetQuantity value) item).1));
      [|done].
    intros. apply changeLine_quantity_withinStock.
  - rewrite handleItemChange_items.
    apply (Forall_map_if (withinStock inventory)
             (λ item, String.eqb (InvoiceItem.id item) id)
             (λ item, (changeLine inventory (SetUnitPrice value) item).1));
      [|done].
    intros item Hitem _. by rewrite changeLine_unit_price.
  - rewrite handleItemChange_items.
    apply (Forall_map_if (withinStock inventory)
             (λ item, String.eqb (InvoiceItem.id item) id)
             (λ item, (changeLine inventory (SetDescription value) item).1));
      [|done].
    intros item Hitem _. by rewrite changeLine_description.
  - cbn.
    apply (Forall_map_if (withinStock inventory)
             (λ item, String.eqb (InvoiceItem.id item) itemId)); [|done].
    intros. by left.
  - cbn. apply Forall_app. split; [done|]. apply Forall_singleton. by left.
  - unfold removeItem. case_bool_decide; [|done]. cbn.
    apply List.Forall_forall. intros item [Hin _]%filter_In.
    by eapply List.Forall_forall in Hst.
  - destruct invoice; cbn; apply Forall_singleton; by left.
Qed.

(** X10: As long as the inventory the component holds does not change, no line
    ever asks for more than its stock: whatever the user does in the editor
    (select, edit, change item, add, remove, reopen), [validateItems] raises
    no "Insufficient Inventory" notification at the end.  That notification
    needs an inventory that changed after the line was edited. *)
Theorem unchanged_inventory_never_insufficient inventory actions now :
  (validateItems inventory
     (items (play inventory actions (initialState now)))).2 = [].
Proof.
  apply withinStock_no_notification. unfold play.
  assert (Hstart : Forall (withinStock inventory) (items (initialState now)))
    by (apply Forall_singleton; by left).
  revert Hstart. generalize (initialState now).
  induction actions as [|a actions IH]; intros st Hst; [done|].
  cbn [fold_left]. apply IH. by apply perform_withinStock.
Qed.

(** X11: An item the dropdown offers, selected into a line with a positive
    quantity, makes a line that validation accepts, provided the item has an
    id, a name and a positive unit price and is the item the inventory
    returns for its id. *)
Theorem selected_offer_is_valid
    inventory inventoryItem itemId st (i : nat) item :
  In inventoryItem (dropdownOptions inventory) →
  findInventory inventory (InventoryItem.id inventoryItem)
  = Some inventoryItem →
  InventoryItem.id inventoryItem ≠ "" →
  InventoryItem.name inventoryItem ≠ "" →
  InventoryItem.unit_price inventoryItem > 0 →
  items st !! i = Some item →
  InvoiceItem.id item = itemId →
  InvoiceItem.quantity item > 0 →
  ∃ item',
    items (handleInventorySelect inventory itemId
             (InventoryItem.id inventoryItem) st) !! i = Some item'
    ∧ validateItems inventory [item'] = (true, []).
Proof.
  intros [_ Hstock%bool_decide_eq_true]%filter_In Hfind Hid Hname Hprice
    Hi Hitem Hq.
  exists (selectLine (InventoryItem.id inventoryItem) inventoryItem item).
  split.
  - unfold handleInventorySelect. rewrite Hfind. cbn [items].
    rewrite list_lookup_fmap, Hi. cbn. by rewrite Hitem, String.eqb_refl.
  - rewrite validateItems_cons.
    assert (Hok : offending inventory
              (selectLine (InventoryItem.id inventoryItem) inventoryItem item)
              = false).
    { apply offending_false. unfold selectLine, calculateItemTotal. cbn.
      repeat split; [done | done | lia | lia |].
      intros other Hother. rewrite Hfind in Hother. injection Hother as <-.
      lia. }
    by rewrite Hok.
Qed.

Lemma selected_offer_is_valid_witness :
  ∃ item',
    items (handleInventorySelect [steelBeam] "1" "inv-1" blank) !! 0%nat
    = Some item'
    ∧ validateItems [steelBeam] [item'] = (true, []).
Proof.
  refine (selected_offer_is_valid [steelBeam] steelBeam "1" blank 0
            (blankItem "1") _ _ _ _ _ _ _ _);
    [by left | reflexivity | discriminate | discriminate | reflexivity
    | reflexivity | reflexivity | reflexivity].
Defined.

(** X12: In every state of an editor session the subtotal the form shows, and a
    submission writes, is the sum over the lines of quantity times unit
    price: the products added to 0 one after the other in the order of the
    lines, as the code adds the line totals. *)
Theorem subtotal_is_sum_of_quantity_times_unit_price st :
  reachable st →
  calculateSubtotal (items st)
  = fold_left Z.add
      (map (λ item, InvoiceItem.quantity item * InvoiceItem.unit_price item)
           (items st)) 0
  ∧ InvoiceData.subtotal (invoiceDataOf (formData st) (items st))
    = calculateSubtotal (items st).
Proof.
  intros Hreach. split; [|done].
  assert (Hlines : Forall consistent (items st)).
  { induction Hreach as [now|st st' _ IH Hstep].
    - by apply Forall_singleton.
    - by apply (step_consistent st st'). }
  rewrite calculateSubtotal_in_order. f_equal.
  induction Hlines as [|item rest Hitem _ IH]; [done|].
  cbn [map]. by rewrite Hitem, IH.
Qed.

Lemma subtotal_is_sum_of_quantity_times_unit_price_witness :
  calculateSubtotal
    (items (handleItemChange [steelBeam] "1" (SetQuantity 3) beamSelected).1)
  = 0 + 3 * 10000.
Proof.
  refine (proj1 (subtotal_is_sum_of_quantity_times_unit_price _ _)).
  eapply reachable_step; [|apply step_quantity].
  eapply reachable_step; [|apply step_select].
  eapply reachable_step; [apply (reachable_initial clock)|].
  apply (step_open None clock).
Defined.

End Sessions.

(** ** The invoice editor: submitting against any store *)

Section SubmissionOutcomes.
Import Editor Scenario Spec Session Store.

Ltac run_submit :=
  unfold submit, handleSubmit, mbind, Async_bind, mret, Async_ret, toast,
    toasts, tryCatch, mutateAsync, onClose in *;
  cbn [fst snd app map] in *.

(** The loop of decrements against any store: it stops at the first
    rejected decrement, which it throws. *)
Lemma reduceInventory_issued items (remote : Remote) trace :
  reduceInventory items remote trace =
  (if (issued remote (callsOf trace) (decrements items)).2
   then Returned () else Thrown,
   trace ++ map Call (issued remote (callsOf trace) (decrements items)).1).
Proof.
  revert trace. induction items as [|item rest IH]; intros trace.
  - cbn. by rewrite app_nil_r.
  - cbn [reduceInventory]. run_submit. unfold decrements.
    cbn [List.filter].
    destruct (_ && _); cbn [map]; fold (decrements rest); [|apply IH].
    cbn [issued]. destruct (remote _ _) as [id|]; [|by cbn].
    rewrite IH, callsOf_app. change (callsOf [Call ?c]) with [c].
    destruct (issued remote _ (decrements rest)) as [calls ok].
    cbn [fst snd map]. by rewrite <- app_assoc.
Qed.

(** X13: Against any store, a valid submission of a new invoice issues the
    writes it set out to make (invoice record, rows, decrements) in order,
    up to and including the first one the store rejects.  After a rejection
    it issues nothing more (no later write, nothing that undoes an earlier
    one), notifies "Failed to save invoice" and leaves the modal open; with
    no rejection it notifies the success and closes the modal. *)
Theorem submit_stops_at_first_rejection (remote : Remote) inventory st :
  Js.truthy (FormData.client_id (formData st)) = true →
  (validateItems inventory (items st)).1 = true →
  submit remote inventory None st =
  map Call (issued remote [] (planned remote st)).1
  ++ (if (issued remote [] (planned remote st)).2
      then [Notify (saved None); Close] else [Notify saveError]).
Proof.
  intros Hclient Hvalid. unfold planned. run_submit.
  rewrite Hclient. cbn [negb].
  destruct (validateItems inventory (items st)) as [valid raised] eqn:Hrun.
  cbn [fst] in Hvalid. subst valid.
  apply validateItems_true in Hrun as ->. cbn [map app negb issued].
  change (callsOf []) with (@nil RemoteCall).
  destruct (remote [] _) as [newId|] eqn:Hnew; [|reflexivity].
  cbn [app issued]. change (callsOf [Call ?c]) with [c].
  destruct (remote [_] (CreateInvoiceItems _)) as [?|]; [|reflexivity].
  rewrite reduceInventory_issued.
  change (callsOf [Call ?a; Call ?b]) with ([a] ++ [b]).
  destruct (issued remote _ (decrements (items st))) as [calls ok].
  cbn [fst snd map app]. destruct ok; cbn [snd app];
    by rewrite <- ?app_assoc.
Qed.

Lemma submit_stops_at_first_rejection_witness :
  submit (λ _ call, match call with
                    | CreateInvoiceItems _ => Rejected
                    | _ => Resolved "inv-new"
                    end)
         [steelBeam] None (withClient "client-1" beamSelected) =
  [Call (CreateInvoice
           (invoiceDataOf (formData (withClient "client-1" beamSelected))
                          [beamLine]));
   Call (CreateInvoiceItems
           [InvoiceItemRow.mk "inv-new" "Steel Beam" 1 10000 10000]);
   Notify saveError].
Proof.
  refine (submit_stops_at_first_rejection _ [steelBeam]
            (withClient "client-1" beamSelected) _ _); reflexivity.
Defined.


(** X15: Saving an existing invoice as the modal opened it issues one update
    with the amounts it was loaded with: the stored subtotal is both the
    subtotal and the total amount, the tax is zero; client, invoice number
    and status are the loaded ones and missing notes become the empty
    string.  The two dates are what [format] prints for the [Date] parsed
    from the stored strings; they are not said to be the stored strings.
    (The lines are not shown for an existing invoice, so this is every
    update the modal can make to the amounts.) *)
Theorem resaving_an_invoice_keeps_its_subtotal
    (remote : Remote) inventory invoice now st :
  Invoice.client_id invoice ≠ "" →
  callsOf (submit remote inventory (Some invoice)
             (openModal (Some invoice) now st)) =
  [UpdateInvoice (Invoice.id invoice)
     (InvoiceData.mk (Invoice.client_id invoice)
        (Invoice.invoice_number invoice)
        (format_yyyy_MM_dd (DateOfString (Invoice.issue_date invoice)))
        (format_yyyy_MM_dd (DateOfString (Invoice.due_date invoice)))
        (default "" (Invoice.notes invoice)) (Invoice.status invoice)
        (Invoice.subtotal invoice) 0 (Invoice.subtotal invoice))].
Proof.
  intros Hclient. run_submit. cbn [openModal formData FormData.client_id].
  unfold Js.truthy. rewrite (proj2 (String.eqb_neq _ _) Hclient). cbn [negb].
  by destruct (remote _ _).
Qed.

Lemma resaving_an_invoice_keeps_its_subtotal_witness :
  callsOf (submit accepting [steelBeam] (Some storedInvoice)
             (openModal (Some storedInvoice) clock blank)) =
  [UpdateInvoice "inv-7"
     (InvoiceData.mk "client-1" "INV-0007"
        (format_yyyy_MM_dd (DateOfString "2026-01-05"))
        (format_yyyy_MM_dd (DateOfString "2026-02-04"))
        "" pending 40000 0 40000)].
Proof.
  refine (resaving_an_invoice_keeps_its_subtotal accepting [steelBeam]
            storedInvoice clock blank _).
  discriminate.
Defined.

(** X16: A form without lines passes validation: with a client selected and a
    store that accepts, it is saved as an invoice of zero with an empty
    batch of rows and no decrement. *)
Theorem empty_form_is_submitted (remote : Remote) inventory st newId :
  items st = [] →
  Js.truthy (FormData.client_id (formData st)) = true →
  (∀ history call, remote history call ≠ Rejected) →
  remote [] (CreateInvoice (invoiceDataOf (formData st) [])) = Resolved newId →
  submit remote inventory None st =
  [Call (CreateInvoice
           (InvoiceData.mk (FormData.client_id (formData st))
              (FormData.invoice_number (formData st))
              (format_yyyy_MM_dd (FormData.issue_date (formData st)))
              (format_yyyy_MM_dd (FormData.due_date (formData st)))
              (FormData.notes (formData st)) (FormData.status (formData st))
              0 0 0));
   Call (CreateInvoiceItems []);
   Notify (saved None); Close].
Proof.
  intros Hempty Hclient Hok Hnew.
  rewrite (submit_create_accepted remote inventory st newId);
    rewrite ?Hempty; done.
Qed.

Lemma empty_form_is_submitted_witness :
  callsOf (submit accepting [steelBeam] None
             (withClient "client-1" (withItems [] blank))) =
  [CreateInvoice
     (InvoiceData.mk "client-1" "INV-0123"
        (format_yyyy_MM_dd (DateOfMillis clock))
        (format_yyyy_MM_dd (DateOfMillis (clock + thirtyDays)))
        "" draft 0 0 0);
   CreateInvoiceItems []].
Proof.
  refine (f_equal callsOf
            (empty_form_is_submitted accepting [steelBeam]
               (withClient "client-1" (withItems [] blank)) "inv-new"
               _ _ _ _));
    [reflexivity | reflexivity | discriminate | reflexivity].
Defined.

End SubmissionOutcomes.

(** ** Searching: the record browser and the two pickers *)

Section Searching.
Import Text Records Picker Browser.

Lemma includes_empty s : Js.includes s "" = true.
Proof. by destruct s. Qed.

Lemma lowerChar_upperChar c : lowerChar (upperChar c) = lowerChar c.
Proof. by destruct c as [[] [] [] [] [] [] [] []]. Qed.

Lemma lowerChar_lowerChar c : lowerChar (lowerChar c) = lowerChar c.
Proof. by destruct c as [[] [] [] [] [] [] [] []]. Qed.

Lemma toLowerCase_toUpperCase s : toLowerCase (toUpperCase s) = toLowerCase s.
Proof.
  induction s as [|c s IH]; [done|]. cbn. by rewrite lowerChar_upperChar, IH.
Qed.

Lemma toLowerCase_toLowerCase s : toLowerCase (toLowerCase s) = toLowerCase s.
Proof.
  induction s as [|c s IH]; [done|]. cbn. by rewrite lowerChar_lowerChar, IH.
Qed.

Lemma truthy_toUpperCase s : Js.truthy (toUpperCase s) = Js.truthy s.
Proof. by destruct s. Qed.

Lemma truthy_toLowerCase s : Js.truthy (toLowerCase s) = Js.truthy s.
Proof. by destruct s. Qed.

Lemma filter_all {A} (test : A → bool) l :
  (∀ x, In x l → test x = true) → List.filter test l = l.
Proof.
  induction l as [|x l IH]; [done|]. intros Hall. cbn.
  rewrite (Hall x) by by left. f_equal. apply IH. intros; apply Hall.
  by right.
Qed.

(** X17: An empty search term filters nothing out: the browser shows every row
    of the table, the client picker every client, and the inventory picker
    every item in stock, which are the options of the dropdown. *)
Theorem empty_search_keeps_everything
    (rows : list Row) clients inventory :
  filteredData rows "" = rows
  ∧ filteredClients clients "" = clients
  ∧ getFilteredInventory inventory "" = dropdownOptions inventory.
Proof.
  repeat split.
  - by apply filter_all.
  - apply filter_all. intros client _. cbn. by rewrite includes_empty.
  - unfold getFilteredInventory, dropdownOptions. apply filter_ext.
    intros item. cbn. by rewrite includes_empty, andb_true_r.
Qed.

(** X18: The three searches ignore the case of the search term. *)
Theorem search_ignores_case (rows : list Row) clients inventory term :
  filteredData rows (toUpperCase term) = filteredData rows term
  ∧ filteredData rows (toLowerCase term) = filteredData rows term
  ∧ filteredClients clients (toUpperCase term) = filteredClients clients term
  ∧ getFilteredInventory inventory (toUpperCase term)
    = getFilteredInventory inventory term.
Proof.
  unfold filteredData, rowMatches, filteredClients, getFilteredInventory.
  rewrite truthy_toUpperCase, truthy_toLowerCase, toLowerCase_toUpperCase,
    toLowerCase_toLowerCase.
  done.
Qed.

(** X19: The inventory picker and the dropdown never offer an item that is out
    of stock, and offer only items of the inventory. *)
Theorem out_of_stock_is_never_offered inventory term :
  Forall (λ item, InventoryItem.quantity item > 0 ∧ In item inventory)
         (getFilteredInventory inventory term)
  ∧ Forall (λ item, InventoryItem.quantity item > 0 ∧ In item inventory)
           (dropdownOptions inventory).
Proof.
  split; apply List.Forall_forall; intros item [Hin Htest]%filter_In.
  - apply andb_true_iff in Htest as [Hstock%bool_decide_eq_true _]. done.
  - apply bool_decide_eq_true in Htest. done.
Qed.

Lemma values_setField key v (row : Row) : In v (values (setField key v row)).
Proof.
  induction row as [|[k w] rest IH]; cbn; [by left|].
  destruct (String.eqb k key); cbn; [by left | by right].
Qed.


(** X20: Every row of the Items tab carries [invoices: undefined], and the search
    compares the term with [String(value)] of every property: a term that
    is part of the word "undefined" (in any case) matches every row of that
    tab. *)
Theorem items_tab_matches_undefined invoiceItems term :
  Js.includes "undefined" (toLowerCase term) = true →
  filteredData (invoiceItemsTable invoiceItems) term
  = invoiceItemsTable invoiceItems.
Proof.
  intros Hterm. apply filter_all. intros row Hrow.
  apply in_map_iff in Hrow as (item & <- & _).
  unfold rowMatches. destruct (negb _); [done|].
  apply existsb_exists. exists (Scalar Js.Undefined).
  split; [apply values_setField | exact Hterm].
Qed.

Lemma items_tab_matches_undefined_witness :
  filteredData
    (invoiceItemsTable [[("id", Scalar (Js.Str "a1"));
                         ("quantity", Scalar (Js.Num 2))]]) "Fine"
  = invoiceItemsTable [[("id", Scalar (Js.Str "a1"));
                        ("quantity", Scalar (Js.Num 2))]].
Proof.
  refine (items_tab_matches_undefined _ "Fine" _). reflexivity.
Defined.



Lemma header_char c :
  Ascii.eqb underscore
    (upperChar (if Ascii.eqb c underscore then space else c)) = false.
Proof. by destruct c as [[] [] [] [] [] [] [] []]. Qed.

(** X22: A column header has as many characters as the column name and shows no
    underscore. *)
Theorem columnHeader_has_no_underscore column :
  String.length (columnHeader column) = String.length column
  ∧ Js.includes (columnHeader column) "_" = false.
Proof.
  unfold columnHeader. induction column as [|c column [IHlen IHnone]];
    [done|].
  cbn [underscoresToSpaces toUpperCase String.length Js.includes
       Js.startsWith].
  rewrite IHlen, IHnone. split; [done|].
  change (Ascii.Ascii true true true true true false true false)
    with underscore.
  by rewrite header_char.
Qed.

End Searching.

(** ** The invoice editor: line ids *)

Section LineIds.
Import Editor Scenario Spec Session.

Lemma toString_inj a b : Js.toString a = Js.toString b → a = b.
Proof. unfold Js.toString. apply (inj pretty). Qed.

Lemma NoDup_map_filter {A B} (f : A → B) (test : A → bool) l :
  NoDup (map f l) → NoDup (map f (List.filter test l)).
Proof.
  induction l as [|x l IH]; [done|]. cbn [map List.filter].
  intros [Hx Hl]%NoDup_cons. destruct (test x); [|by apply IH].
  cbn [map]. apply NoDup_cons. split; [|by apply IH].
  intros Hin. apply Hx. apply list_elem_of_In in Hin. apply list_elem_of_In.
  apply in_map_iff in Hin as (y & <- & [Hy _]%filter_In).
  by apply in_map.
Qed.

Lemma perform_edit_ids inventory a st :
  match a with Add _ | Remove _ | Open _ _ => False | _ => True end →
  map InvoiceItem.id (items (perform inventory a st))
  = map InvoiceItem.id (items st).
Proof.
  destruct a as [itemId inventoryItemId|id value|id value|id value
                |itemId|now|id|invoice now]; intros Hedit; try done;
    cbn [perform].
  - unfold handleInventorySelect.
    destruct (findInventory _ _) as [inventoryItem|]; [|done]. cbn.
    by apply (map_if_ids (λ item, String.eqb (InvoiceItem.id item) itemId)).
  - rewrite handleItemChange_items.
    apply (map_if_ids (λ item, String.eqb (InvoiceItem.id item) id)
             (λ item, (changeLine inventory (SetQuantity value) item).1)).
    apply changeLine_quantity_id.
  - rewrite handleItemChange_items.
    apply (map_if_ids (λ item, String.eqb (InvoiceItem.id item) id)
             (λ item, (changeLine inventory (SetUnitPrice value) item).1)).
    intros item. by rewrite changeLine_unit_price.
  - rewrite handleItemChange_items.
    apply (map_if_ids (λ item, String.eqb (InvoiceItem.id item) id)
             (λ item, (changeLine inventory (SetDescription value) item).1)).
    intros item. by rewrite changeLine_description.
  - cbn. by apply (map_if_ids (λ item, String.eqb (InvoiceItem.id item) itemId)).
Qed.

Lemma idsFrom_same_ids seen st st' :
  map InvoiceItem.id (items st') = map InvoiceItem.id (items st) →
  idsFrom seen st → idsFrom seen st'.
Proof.
  intros Hids (Hdistinct & Hne & Hfrom). unfold idsFrom. rewrite Hids.
  repeat split; [done| |done].
  intros Hnil. rewrite Hnil in Hids. by destruct (items st).
Qed.

Lemma idsFrom_more seen more st :
  idsFrom seen st → idsFrom (seen ++ more) st.
Proof.
  intros (Hdistinct & Hne & Hfrom). repeat split; [done|done|].
  eapply Forall_impl; [exact Hfrom|]. intros id [->|(now & Hnow & ->)];
    [by left|]. right. exists now. split; [|done]. apply in_app_iff. by left.
Qed.

Lemma idsFrom_play inventory actions seen st :
  idsFrom seen st →
  NoDup (seen ++ addTimes actions) →
  ¬ In 1 (addTimes actions) →
  idsFrom (seen ++ addTimes actions) (play inventory actions st).
Proof.
  revert seen st. induction actions as [|a actions IH]; intros seen st Hst.
  { cbn. by rewrite app_nil_r. }
  assert (Hedit : match a with Add _ | Remove _ | Open _ _ => False
                  | _ => True end →
                  addTimes (a :: actions) = addTimes actions →
                  NoDup (seen ++ addTimes (a :: actions)) →
                  ¬ In 1 (addTimes (a :: actions)) →
                  idsFrom (seen ++ addTimes (a :: actions))
                          (play inventory (a :: actions) st)).
  { intros Ha -> Hseen Hone. cbn [play fold_left]. apply IH; [|done|done].
    eapply idsFrom_same_ids; [|exact Hst]. by apply perform_edit_ids. }
  destruct a as [itemId inventoryItemId|id value|id value|id value
                |itemId|now|id|invoice now]; try (by apply Hedit); clear Hedit.
  - (* Add *)
    cbn [addTimes]. intros Hseen Hone.
    replace (seen ++ now :: addTimes actions)
      with ((seen ++ [now]) ++ addTimes actions) in *
      by (by rewrite <- app_assoc).
    cbn [play fold_left perform]. apply IH; [|done|].
    + destruct Hst as (Hdistinct & Hne & Hfrom).
      apply NoDup_app in Hseen as [Hseen _].
      apply NoDup_app in Hseen as (_ & Hfresh & _).
      unfold idsFrom, addItem. cbn [items]. rewrite map_app. cbn [map].
      repeat split.
      * apply NoDup_app. repeat split; [done| |apply NoDup_singleton].
        intros id Hid ->%list_elem_of_singleton.
        eapply List.Forall_forall in Hfrom; [|by apply list_elem_of_In].
        destruct Hfrom as [Hfirst|(earlier & Hearlier & Heq)].
        -- apply (toString_inj now 1) in Hfirst. subst now.
           apply Hone. by left.
        -- apply toString_inj in Heq. subst earlier.
           apply (Hfresh now); [by apply list_elem_of_In|].
           by apply list_elem_of_singleton.
      * by destruct (items st).
      * apply Forall_app. split.
        -- eapply Forall_impl; [exact Hfrom|].
           intros id [->|(earlier & Hearlier & ->)]; [by left|].
           right. exists earlier. split; [|done]. apply in_app_iff. by left.
        -- apply Forall_singleton. right. exists now. split; [|done].
           apply in_app_iff. right. by left.
    + intros Hin. apply Hone. by right.
  - (* Remove *)
    cbn [addTimes play fold_left perform]. intros Hseen Hone.
    apply IH; [|done|done].
    destruct Hst as (Hdistinct & Hne & Hfrom). repeat split.
    + unfold removeItem. case_bool_decide; [|done]. cbn [items].
      by apply NoDup_map_filter.
    + by apply removeItem_distinct_ids_nonempty.
    + unfold removeItem. case_bool_decide; [|done]. cbn [items].
      apply List.Forall_forall. intros x (y & <- & [Hy _]%filter_In)%in_map_iff.
      eapply List.Forall_forall in Hfrom; [exact Hfrom|]. by apply in_map.
  - (* Open *)
    cbn [addTimes play fold_left perform]. intros Hseen Hone.
    apply IH; [|done|done].
    destruct invoice as [inv|]; repeat split; cbn;
      try apply NoDup_singleton; try done;
      apply Forall_singleton; by left.
Qed.

(** X23: When no two lines of a session are added at the same clock reading, and
    none at the reading 1, the ids of the lines stay pairwise distinct and
    the form never loses its last line, whatever is selected, edited,
    removed or reopened in between. *)
Theorem distinct_clock_readings_keep_a_line inventory actions now :
  NoDup (addTimes actions) →
  ¬ In 1 (addTimes actions) →
  NoDup (map InvoiceItem.id
           (items (play inventory actions (initialState now))))
  ∧ items (play inventory actions (initialState now)) ≠ [].
Proof.
  intros Hdistinct Hone.
  destruct (idsFrom_play inventory actions [] (initialState now))
    as (Hids & Hne & _); [|done|done|done].
  repeat split; cbn; [apply NoDup_singleton | done |].
  apply Forall_singleton. by left.
Qed.

Lemma distinct_clock_readings_keep_a_line_witness :
  items (play [steelBeam]
           [Add clock; Add (clock + 1); Remove "1"; Remove (Js.toString clock)]
           (initialState clock)) ≠ [].
Proof.
  refine (proj2 (distinct_clock_readings_keep_a_line [steelBeam]
            [Add clock; Add (clock + 1); Remove "1"; Remove (Js.toString clock)]
            clock _ _)).
  - apply NoDup_cons. split; [|apply NoDup_singleton].
    intros Hin%list_elem_of_singleton. discriminate.
  - intros [H|[H|[]]]; discriminate.
Defined.

End LineIds.

(** ** The invoice editor: several lines for one inventory item *)

Section RepeatedLines.
Import Editor Scenario Spec Session Store.





End RepeatedLines.

Section MoreWitnesses.
Import Editor Scenario Spec Text Records.

Lemma validateItems_accepts_exactly_witness :
  (validateItems [steelBeam] [beamLine]).1 = true.
Proof.
  refine (proj2 (validateItems_accepts_exactly [steelBeam] [beamLine]) _).
  apply List.Forall_cons; [|apply List.Forall_nil].
  repeat split; [discriminate | discriminate |].
  intros inventoryItem [= <-]. cbn. lia.
Defined.


End MoreWitnesses.

(** ** The invoice editor: the guards of a submission, in order *)

Section SubmissionGuards.
Import Editor Scenario Spec.

(** C2, as stated, fails when no client is selected: the line below only
    exceeds the stock of its inventory item (10 asked, 5 available), and the
    submission is blocked, yet the only notification is "Please select a
    client"; none names the item. *)
Lemma missing_client_hides_the_stock_notification :
  let line := InvoiceItem.mk "1" "inv-1" "Steel Beam" 10 10000 100000 in
  let st := withItems [line] blank in
  FormData.client_id (formData st) = ""
  ∧ fieldViolation line = false
  ∧ stockViolation [steelBeam] line = Some steelBeam
  ∧ notificationsOf (submit accepting [steelBeam] None st)
    = [Toast.mk "Error" "Please select a client" (Some "destructive")]
  ∧ ¬ In (Toast.mk "Insufficient Inventory"
            "Only 5 units available for Steel Beam" (Some "destructive"))
         (notificationsOf (submit accepting [steelBeam] None st)).
Proof.
  cbn zeta. repeat split; try reflexivity.
  intros [Hin|[]]. discriminate.
Qed.

End SubmissionGuards.
